(** * Dialect data types of the Dameng (dm) and KingbaseES (kingbase8) dialects

    A shallow embedding of [src/dialects/dmdb/data-types.js] and of the
    KingbaseES data-type file.  Both files are functions of the host's
    [BaseTypes] object: they register wire-type names on the host's classes
    and return a table of subclasses that override [toSql], [_stringify],
    [_sanitize] and the static [parse].

    JavaScript values are an inductive type, numbers are IEEE doubles
    (primitive floats), and the mutable state the files touch (the receiver
    of a method, the host's class objects, the calls to the host's [warn]
    and the one variable of the KingbaseES file) is threaded explicitly
    through a small state-and-exception monad.  What comes from outside
    the two files (the engine, the libraries, the host's base classes, the
    functions handed in by the caller) is a parameter. *)

From Stdlib Require Import Floats ZArith Ascii String List Bool.
From stdpp Require Import gmap strings list.

Local Open Scope string_scope.
Local Set Warnings "-register-all".

(** ** JavaScript values *)

Inductive value : Type :=
| VUndefined
| VNull
| VBool (b : bool)
| VNum (n : float)
| VStr (s : string)
| VDate (t : float)
| VBuffer (bytes : list Z)
| VFunction (name : string)
| VArray (xs : list value)
| VObject (props : list (string * value)).

Definition Infinity : float := infinity.
Definition NegInfinity : float := neg_infinity.

(** [ToBoolean]: what [if (v)], [!v] and [a || b] look at. *)
Definition truthy (v : value) : bool :=
  match v with
  | VUndefined | VNull => false
  | VBool b => b
  | VNum n => negb (PrimFloat.eqb n 0 || PrimFloat.is_nan n)
  | VStr s => negb (String.eqb s "")
  | _ => true
  end.

(** [v === n] for a number literal [n], [v === s] for a string literal. *)
Definition seq_num (v : value) (n : float) : bool :=
  match v with VNum m => PrimFloat.eqb m n | _ => false end.

Definition seq_str (v : value) (s : string) : bool :=
  match v with VStr t => String.eqb t s | _ => false end.

Definition is_nullish (v : value) : bool :=
  match v with VUndefined | VNull => true | _ => false end.

(** Own-property read [o.k]; reading a missing property, or a property of a
    primitive, gives [undefined].  Reading from [null] or [undefined] throws
    and is modelled at the call sites, which all guard it. *)
Fixpoint assoc (k : string) (props : list (string * value)) : option value :=
  match props with
  | [] => None
  | (k', v) :: rest => if String.eqb k k' then Some v else assoc k rest
  end.

Definition get (o : value) (k : string) : value :=
  match o with
  | VObject props => default VUndefined (assoc k props)
  | _ => VUndefined
  end.

(** [String.prototype.toLowerCase] on the ASCII letters. *)
Definition lower_ascii (c : ascii) : ascii :=
  let n := nat_of_ascii c in
  if (65 <=? n)%nat && (n <=? 90)%nat then ascii_of_nat (n + 32) else c.

Fixpoint toLowerCase (s : string) : string :=
  match s with
  | EmptyString => EmptyString
  | String c r => String (lower_ascii c) (toLowerCase r)
  end.

(** [Array.prototype.join(sep)] on an array of strings, and
    [new Array(n).fill(x)]. *)
Fixpoint join (sep : string) (xs : list string) : string :=
  match xs with
  | [] => ""
  | [x] => x
  | x :: rest => x ++ sep ++ join sep rest
  end.

Definition array_fill {A} (n : nat) (x : A) : list A := repeat x n.

(** [Array.prototype.includes] on string constants. *)
Definition includes_str (xs : list string) (v : value) : bool :=
  existsb (seq_str v) xs.

(** lodash's [_.isEmpty]: nullish values, numbers, booleans and functions are
    empty; strings, arrays and buffers are empty when their length is zero;
    other objects when they have no own enumerable property. *)
Definition isEmpty (v : value) : bool :=
  match v with
  | VUndefined | VNull | VBool _ | VNum _ | VDate _ | VFunction _ => true
  | VStr s => String.eqb s ""
  | VBuffer b => match b with [] => true | _ => false end
  | VArray xs => match xs with [] => true | _ => false end
  | VObject ps => match ps with [] => true | _ => false end
  end.

(** [ToString], as template literals apply it.  The conversions of numbers
    and of objects are the engine's. *)
Section ToString.
Variable NumberToString : float -> string.
Variable ObjectToString : value -> string.

Definition ToString (v : value) : string :=
  match v with
  | VUndefined => "undefined"
  | VNull => "null"
  | VBool true => "true"
  | VBool false => "false"
  | VNum n => NumberToString n
  | VStr s => s
  | _ => ObjectToString v
  end.

(** [Array.prototype.join(sep)] on values: [undefined] and [null] give the
    empty string. *)
Definition join_values (sep : string) (xs : list value) : string :=
  join sep (map (fun v => if is_nullish v then "" else ToString v) xs).

End ToString.

(** ** Data-type instances

    The fields of a data-type instance that the two files read or write.
    [options_length] is [this.options.length]; the host's constructors read
    it themselves, so that [this.options] is not [null] or [undefined] on
    an instance they have built.  [options_locked] is the error that an
    assignment to [this.options.length] throws, if it throws: the files
    are in strict mode, where assigning to a property of a string, or of a
    frozen object, is a TypeError.  [_subtype] is the subtype name of a
    RANGE and [values] the [values] of an ENUM. *)
Record DataType : Type := mkDataType {
  key : value;
  _length : value;
  options_length : value;
  _unsigned : value;
  _zerofill : value;
  _decimals : value;
  _binary : value;
  type : value;
  srid : value;
  sqlType : value;
  options_locked : option string;
  _subtype : value;
  values : value
}.

Definition set_length (v : value) (d : DataType) : DataType :=
  mkDataType (key d) v (options_length d) (_unsigned d) (_zerofill d)
             (_decimals d) (_binary d) (type d) (srid d) (sqlType d)
             (options_locked d)
             (_subtype d) (values d).
Definition set_options_length (v : value) (d : DataType) : DataType :=
  mkDataType (key d) (_length d) v (_unsigned d) (_zerofill d)
             (_decimals d) (_binary d) (type d) (srid d) (sqlType d)
             (options_locked d)
             (_subtype d) (values d).
Definition set_unsigned (v : value) (d : DataType) : DataType :=
  mkDataType (key d) (_length d) (options_length d) v (_zerofill d)
             (_decimals d) (_binary d) (type d) (srid d) (sqlType d)
             (options_locked d)
             (_subtype d) (values d).
Definition set_zerofill (v : value) (d : DataType) : DataType :=
  mkDataType (key d) (_length d) (options_length d) (_unsigned d) v
             (_decimals d) (_binary d) (type d) (srid d) (sqlType d)
             (options_locked d)
             (_subtype d) (values d).
Definition set_decimals (v : value) (d : DataType) : DataType :=
  mkDataType (key d) (_length d) (options_length d) (_unsigned d) (_zerofill d)
             v (_binary d) (type d) (srid d) (sqlType d)
             (options_locked d)
             (_subtype d) (values d).
Definition set_sqlType (v : value) (d : DataType) : DataType :=
  mkDataType (key d) (_length d) (options_length d) (_unsigned d) (_zerofill d)
             (_decimals d) (_binary d) (type d) (srid d) v (options_locked d)
             (_subtype d) (values d).

(** ** The host's [BaseTypes]

    [BaseTypes] maps property names to class objects.  Class objects are
    shared: two names may denote one class, so names map to locations and
    locations to the objects.  Of a class object the files touch the
    [types] table (dialect key to wire-type names) and the prototype. *)
Record ClassObj : Type := mkClassObj {
  types : gmap string value;
  proto : gmap string value
}.

Record Host : Type := mkHost {
  names : gmap string positive;
  classes : gmap positive ClassObj
}.

(** ** State and exceptions

    [this] is the receiver of the running method, [warned] the calls made to
    the host's [warn] (link and text), [hstore] the variable [let hstore] of
    the KingbaseES file, which holds [undefined] or the module loaded from
    ['./hstore'], and [host] the host's class objects. *)
Inductive module_ref : Type := HstoreModule.

Record World : Type := mkWorld {
  this : DataType;
  warned : list (string * string);
  hstore : option module_ref;
  host : Host
}.

Definition with_this (f : DataType -> DataType) (w : World) : World :=
  mkWorld (f (this w)) (warned w) (hstore w) (host w).
Definition with_warned (l : list (string * string)) (w : World) : World :=
  mkWorld (this w) l (hstore w) (host w).
Definition with_hstore (h : option module_ref) (w : World) : World :=
  mkWorld (this w) (warned w) h (host w).
Definition with_host (h : Host) (w : World) : World :=
  mkWorld (this w) (warned w) (hstore w) h.

Inductive outcome (A : Type) : Type :=
| Return (a : A)
| Throw (error : string).
Arguments Return {A} a.
Arguments Throw {A} error.

(** Code without effects on the state returns or throws. *)
#[global] Instance outcome_ret : MRet outcome := fun A a => Return a.
#[global] Instance outcome_bind : MBind outcome := fun A B f o =>
  match o with
  | Return a => f a
  | Throw e => Throw e
  end.

Definition M (A : Type) : Type := World -> outcome A * World.

#[global] Instance M_ret : MRet M := fun A a w => (Return a, w).
#[global] Instance M_bind : MBind M := fun A B f m w =>
  match m w with
  | (Return a, w') => f a w'
  | (Throw e, w') => (Throw e, w')
  end.

Definition throw {A} (e : string) : M A := fun w => (Throw e, w).
Definition read {A} (f : World -> A) : M A := fun w => (Return (f w), w).
Definition modify (f : World -> World) : M unit := fun w => (Return tt, f w).

Definition lift_outcome {A} (o : outcome A) : M A := fun w => (o, w).

(** [this.options.length = v] *)
Definition assign_options_length (v : value) : M unit :=
  d ← read this;
  match options_locked d with
  | Some e => throw e
  | None => modify (with_this (set_options_length v))
  end.

Definition result {A} (x : outcome A * World) : outcome A := fst x.
Definition final {A} (x : outcome A * World) : World := snd x.

(** [new Array(v)]: a number must be an integer in [0, 2^32 - 1] and gives
    that many empty slots, anything else than a number gives the one-element
    array [[v]].  Only the number of slots is kept, since the callers [fill]
    the array. *)
Definition float_to_Z (f : float) : option Z :=
  match Prim2SF f with
  | S754_zero _ => Some 0%Z
  | S754_finite false m e =>
      if (0 <=? e)%Z then Some (Z.pos m * 2 ^ e)%Z
      else if (Z.pos m mod 2 ^ (- e) =? 0)%Z then Some (Z.pos m / 2 ^ (- e))%Z
      else None
  | _ => None
  end.

Definition new_Array (v : value) : outcome nat :=
  match v with
  | VNum n =>
      match float_to_Z n with
      | Some z =>
          if (z <? 2 ^ 32)%Z then Return (Z.to_nat z)
          else Throw "RangeError: Invalid array length"
      | None => Throw "RangeError: Invalid array length"
      end
  | _ => Return 1%nat
  end.

(** ** Operations on the host's classes

    [BaseTypes.C] for a property name [C]; using the result of a missing
    property (as [BaseTypes.C.types], or in [extends BaseTypes.C]) throws. *)
Definition class_ref (cls : string) : M positive := fun w =>
  match names (host w) !! cls with
  | Some l => (Return l, w)
  | None => (Throw ("TypeError: BaseTypes." ++ cls ++ " is undefined"), w)
  end.

Definition update_class (l : positive) (f : ClassObj -> ClassObj) : M unit :=
  fun w =>
    match classes (host w) !! l with
    | Some c =>
        (Return tt,
         with_host (mkHost (names (host w)) (<[l := f c]> (classes (host w)))) w)
    | None => (Throw "TypeError: dangling class reference", w)
    end.

(** [BaseTypes.C.types.dialect = v] *)
Definition set_types (cls dialect : string) (v : value) : M unit :=
  l ← class_ref cls;
  update_class l (fun c => mkClassObj (<[dialect := v]> (types c)) (proto c)).

(** [BaseTypes.C.prototype.prop = v] *)
Definition set_proto (cls prop : string) (v : value) : M unit :=
  l ← class_ref cls;
  update_class l (fun c => mkClassObj (types c) (<[prop := v]> (proto c))).

(** A class declared by a dialect file: its name, the class object it
    extends, and the names of the methods and static methods of its body. *)
Record Class : Type := mkClass {
  cname : string;
  parent : positive;
  own_methods : list string;
  own_statics : list string
}.

(** [class name extends BaseTypes.base { ... }] *)
Definition declare (name base : string) (methods statics : list string)
  : M Class :=
  l ← class_ref base;
  mret (mkClass name l methods statics).

(** [C.name = function ...] and [delete C.name] on a declared class. *)
Definition add_static (name : string) (c : Class) : Class :=
  mkClass (cname c) (parent c) (own_methods c)
          (if existsb (String.eqb name) (own_statics c) then own_statics c
           else own_statics c ++ [name]).

Definition delete_static (name : string) (c : Class) : Class :=
  mkClass (cname c) (parent c) (own_methods c)
          (filter (fun s => negb (String.eqb name s)) (own_statics c)).

Definition add_proto (name : string) (c : Class) : Class :=
  mkClass (cname c) (parent c)
          (if existsb (String.eqb name) (own_methods c) then own_methods c
           else own_methods c ++ [name])
          (own_statics c).

Definition has_own_static (name : string) (c : Class) : bool :=
  existsb (String.eqb name) (own_statics c).

(** The wire-type array [[a, b, ...]] of string literals. *)
Definition wire (l : list string) : value := VArray (map VStr l).

(** ** The KingbaseES file *)

Module K.

Section Kingbase8.

(** What the file takes from outside: the engine's string conversions,
    [new Date(v)] and [parseInt(v, 10)]; the host's base classes, through
    [super(...)] in a constructor (the instance it leaves in [this]) and
    through inherited methods ([super.m(...)], by class and method name);
    and the two functions of the module ['./hstore']. *)
Variable NumberToString : float -> string.
Variable ObjectToString : value -> string.
Variable newDate : value -> float.
Variable parseInt10 : value -> float.
Variable base_new : string -> list value -> DataType.
Variable super : string -> string -> DataType -> list value -> value.
Variable hstore_stringify : value -> string.
Variable hstore_parse : value -> value.

Local Abbreviation str := (ToString NumberToString ObjectToString).

Definition link : string :=
  "http://www.postgresql.org/docs/9.4/static/datatype.html".

(** [warn = BaseTypes.ABSTRACT.warn.bind(undefined, link)] *)
Definition warn (text : string) : M unit :=
  modify (fun w => with_warned (warned w ++ [(link, text)]) w).

(** [removeUnsupportedIntegerOptions(dataType)], called on [this]. *)
Definition removeUnsupportedIntegerOptions : M unit :=
  d ← read this;
  if truthy (_length d) || truthy (options_length d)
     || truthy (_unsigned d) || truthy (_zerofill d)
  then
    warn ("KingbaseES does not support '" ++ str (key d)
          ++ "' with LENGTH, UNSIGNED or ZEROFILL. Plain '" ++ str (key d)
          ++ "' will be used instead.");;
    modify (with_this (set_length VUndefined));;
    assign_options_length VUndefined;;
    modify (with_this (set_unsigned VUndefined));;
    modify (with_this (set_zerofill VUndefined))
  else mret tt.

(** *** DATEONLY *)

Definition DATEONLY_stringify (d : DataType) (v options : value) : value :=
  if seq_num v Infinity then VStr "Infinity"
  else if seq_num v NegInfinity then VStr "-Infinity"
  else super "DATEONLY" "_stringify" d [v; options].

Definition sanitize_enabled (options : value) : bool :=
  negb (truthy options)
  || (truthy options && negb (truthy (get options "raw"))).

Definition DATEONLY_sanitize (d : DataType) (v options : value) : value :=
  if sanitize_enabled options
     && negb (seq_num v Infinity) && negb (seq_num v NegInfinity)
  then
    match v with
    | VStr s =>
        let lower := toLowerCase s in
        if String.eqb lower "infinity" then VNum Infinity
        else if String.eqb lower "-infinity" then VNum NegInfinity
        else super "DATEONLY" "_sanitize" d [v]
    | _ => super "DATEONLY" "_sanitize" d [v]
    end
  else v.

Definition DATEONLY_parse (v : value) : value :=
  if seq_str v "infinity" then VNum Infinity
  else if seq_str v "-infinity" then VNum NegInfinity
  else v.

(** *** DECIMAL, CITEXT, ENUM, INTEGER: static parse *)

Definition DECIMAL_parse (v : value) : value := v.
Definition CITEXT_parse (v : value) : value := v.
Definition ENUM_parse (v : value) : value := v.
Definition INTEGER_parse (v : value) : value := VNum (parseInt10 v).

(** *** STRING, CHAR, TEXT, BLOB *)

Definition STRING_toSql (d : DataType) : value :=
  if truthy (_binary d) then VStr "BYTEA" else super "STRING" "toSql" d [].

Definition CHAR_toSql (d : DataType) : value :=
  if truthy (_binary d) then VStr "BYTEA" else super "CHAR" "toSql" d [].

Definition TEXT_toSql : M value :=
  d ← read this;
  (if truthy (_length d) then
     warn "KingbaseES does not support TEXT with options. Plain `TEXT` will be used instead.";;
     modify (with_this (set_length VUndefined))
   else mret tt);;
  mret (VStr "TEXT").

Definition BLOB_toSql : M value :=
  d ← read this;
  (if truthy (_length d) then
     warn "KingbaseES does not support BLOB (BYTEA) with options. Plain `BYTEA` will be used instead.";;
     modify (with_this (set_length VUndefined))
   else mret tt);;
  mret (VStr "BYTEA").

(** *** BOOLEAN *)

Definition BOOLEAN_toSql : value := VStr "BOOLEAN".

Definition BOOLEAN_sanitize (v : value) : value :=
  if negb (is_nullish v) then
    let v :=
      match v with
      | VBuffer [b] => VNum (PrimFloat.of_uint63 (Uint63.of_Z b))
      | _ => v
      end in
    match v with
    | VStr s =>
        if existsb (String.eqb s) ["true"; "t"] then VBool true
        else if existsb (String.eqb s) ["false"; "f"] then VBool false
        else v
    | VNum n =>
        if PrimFloat.eqb n 1 then VBool true
        else if PrimFloat.eqb n 0 then VBool false
        else v
    | _ => v
    end
  else v.

(** [BOOLEAN.parse = BOOLEAN.prototype._sanitize] *)
Definition BOOLEAN_parse : value -> value := BOOLEAN_sanitize.

(** *** DATE *)

Definition DATE_toSql : value := VStr "TIMESTAMP WITH TIME ZONE".

Definition DATE_stringify (d : DataType) (v options : value) : value :=
  if seq_num v Infinity then VStr "Infinity"
  else if seq_num v NegInfinity then VStr "-Infinity"
  else super "DATE" "_stringify" d [v; options].

Definition instanceof_Date (v : value) : bool :=
  match v with VDate _ => true | _ => false end.

Definition DATE_sanitize (v options : value) : value :=
  if sanitize_enabled options
     && negb (instanceof_Date v) && truthy v
     && negb (seq_num v Infinity) && negb (seq_num v NegInfinity)
  then
    match v with
    | VStr s =>
        let lower := toLowerCase s in
        if String.eqb lower "infinity" then VNum Infinity
        else if String.eqb lower "-infinity" then VNum NegInfinity
        else VDate (newDate v)
    | _ => VDate (newDate v)
    end
  else v.

(** The class body of DATE declares no static [parse]: [DATE.parse] is
    whatever the host's [BaseTypes.DATE] has under that name, and calling
    it when the host has none throws. *)
Definition DATE_parse (base_parse : option (value -> value)) (v : value)
  : outcome value :=
  match base_parse with
  | Some f => Return (f v)
  | None => Throw "TypeError: DATE.parse is not a function"
  end.

(** *** The integer family and FLOAT: constructors *)

Definition number_new (cls : string) (length : value) : M unit :=
  modify (with_this (fun _ => base_new cls [length]));;
  removeUnsupportedIntegerOptions.

Definition TINYINT_new : value -> M unit := number_new "TINYINT".
Definition SMALLINT_new : value -> M unit := number_new "SMALLINT".
Definition INTEGER_new : value -> M unit := number_new "INTEGER".
Definition BIGINT_new : value -> M unit := number_new "BIGINT".
Definition REAL_new : value -> M unit := number_new "REAL".
Definition DOUBLE_new : value -> M unit := number_new "DOUBLE".

Definition FLOAT_new (length decimals : value) : M unit :=
  modify (with_this (fun _ => base_new "FLOAT" [length; decimals]));;
  d ← read this;
  (if truthy (_decimals d) then
     warn "KingbaseES does not support FLOAT with decimals. Plain `FLOAT` will be used instead.";;
     modify (with_this (set_length VUndefined));;
     assign_options_length VUndefined;;
     modify (with_this (set_decimals VUndefined))
   else mret tt);;
  d ← read this;
  (if truthy (_unsigned d) then
     warn "KingbaseES does not support FLOAT unsigned. `UNSIGNED` was removed.";;
     modify (with_this (set_unsigned VUndefined))
   else mret tt);;
  d ← read this;
  (if truthy (_zerofill d) then
     warn "KingbaseES does not support FLOAT zerofill. `ZEROFILL` was removed.";;
     modify (with_this (set_zerofill VUndefined))
   else mret tt).

(** *** GEOMETRY and GEOGRAPHY: toSql *)

Definition type_suffix (d : DataType) : string :=
  "(" ++ str (type d)
  ++ (if truthy (srid d) then "," ++ str (srid d) else "") ++ ")".

Definition GEOMETRY_toSql (d : DataType) : value :=
  if truthy (type d) then VStr (str (key d) ++ type_suffix d) else key d.

Definition GEOGRAPHY_toSql (d : DataType) : value :=
  if truthy (type d) then VStr ("GEOGRAPHY" ++ type_suffix d)
  else VStr "GEOGRAPHY".

(** *** HSTORE

    [if (!hstore) { hstore = require('./hstore'); }] *)
Definition load_hstore : M unit :=
  h ← read hstore;
  match h with
  | None => modify (with_hstore (Some HstoreModule))
  | Some _ => mret tt
  end.

Definition HSTORE_new : M unit :=
  modify (with_this (fun _ => base_new "HSTORE" []));;
  load_hstore.

Definition HSTORE_value (v : value) : M string :=
  load_hstore;;
  mret (hstore_stringify v).

Definition HSTORE_stringify (v : value) : M value :=
  s ← HSTORE_value v;
  mret (VStr ("'" ++ s ++ "'")).

Definition HSTORE_parse (v : value) : M value :=
  load_hstore;;
  mret (hstore_parse v).

(** *** RANGE

    From outside: [stringify] of the module ['./range'], applied to the
    array of stringified bounds and to the array put in its [inclusive]
    property; [this.options.subtype.stringify], if the subtype has one; and
    [options.escape(value)]. *)
Variable range_stringify : list value -> list value -> string.
Variable subtype_stringify : option (value -> value -> value).
Variable escape : value -> value -> outcome value.

(** [a[i] = x] on an array: past the end the array grows, the slots in
    between stay empty. *)
Definition array_set (i : nat) (x : value) (a : list value) : list value :=
  if (i <? length a)%nat then <[i := x]> a
  else a ++ repeat VUndefined (i - length a) ++ [x].

(** The first steps of the callback of [values.map]: a bound given as an
    object with an own property [value] stands for that value, and its own
    property [inclusive], if any, goes to [valueInclusivity[index]]. *)
Definition unwrap_bound (v : value) : value * option value :=
  match v with
  | VObject props =>
      match assoc "value" props with
      | Some x => (x, assoc "inclusive" props)
      | None => (v, None)
      end
  | _ => (v, None)
  end.

Definition is_unbounded (v : value) : bool :=
  match v with VNull => true | _ => seq_num v NegInfinity || seq_num v Infinity end.

Definition stringify_bound (v options : value) : outcome value :=
  if is_unbounded v then Return v
  else
    match subtype_stringify with
    | Some f => Return (f v options)
    | None => escape options v
    end.

Fixpoint RANGE_bounds (values : list value) (index : nat)
    (valueInclusivity : list value) (options : value)
  : outcome (list value * list value) :=
  match values with
  | [] => Return ([], valueInclusivity)
  | v :: rest =>
      let (x, inclusive) := unwrap_bound v in
      let valueInclusivity :=
        match inclusive with
        | Some b => array_set index b valueInclusivity
        | None => valueInclusivity
        end in
      match stringify_bound x options with
      | Throw e => Throw e
      | Return s =>
          match RANGE_bounds rest (S index) valueInclusivity options with
          | Return (ss, incl) => Return (s :: ss, incl)
          | Throw e => Throw e
          end
      end
  end.

Definition RANGE_value (values options : value) : outcome value :=
  match values with
  | VArray vs =>
      match RANGE_bounds vs 0 [VBool true; VBool false] options with
      | Return (ss, incl) => Return (VStr (range_stringify ss incl))
      | Throw e => Throw e
      end
  | _ =>
      match subtype_stringify with
      | Some f => Return (f values options)
      | None => Throw "TypeError: this.options.subtype.stringify is not a function"
      end
  end.

(** [o[k]] for [toSql] and [toCastType].  On a plain object an own
    property wins and the properties of [Object.prototype] come next; on
    [undefined] and [null] the read throws; on other values it is the
    engine's. *)
Variable engine_member : value -> string -> outcome value.

Definition object_prototype (k : string) : value :=
  if String.eqb k "__proto__" then VObject []
  else if existsb (String.eqb k)
            ["constructor"; "__defineGetter__"; "__defineSetter__";
             "hasOwnProperty"; "__lookupGetter__"; "__lookupSetter__";
             "isPrototypeOf"; "propertyIsEnumerable"; "toString"; "valueOf";
             "toLocaleString"]
       then VFunction (if String.eqb k "constructor" then "Object" else k)
       else VUndefined.

Definition member (o : value) (k : string) : outcome value :=
  match o with
  | VObject props => Return (default (object_prototype k) (assoc k props))
  | VUndefined | VNull =>
      Throw "TypeError: Cannot read properties of undefined"
  | _ => engine_member o k
  end.

(** [toSql] and [toCastType]:
    [BaseTypes.RANGE.types.kingbase8.subtypes[this._subtype.toLowerCase()]]
    and the same with [castTypes]. *)
Definition RANGE_table (table : string) (_subtype : value) : M value :=
  l ← class_ref "RANGE";
  cs ← read (fun w => classes (host w));
  match cs !! l with
  | None => throw "TypeError: dangling class reference"
  | Some c =>
      tbl ← lift_outcome (member (default VUndefined (types c !! "kingbase8")) table);
      match _subtype with
      | VStr s => lift_outcome (member tbl (toLowerCase s))
      | _ => throw "TypeError: this._subtype.toLowerCase is not a function"
      end
  end.

Definition RANGE_toSql : value -> M value := RANGE_table "subtypes".
Definition RANGE_toCastType : value -> M value := RANGE_table "castTypes".

(** [options.bindParam(x)], the caller's like [options.escape(x)]: a
    function of [options] and [x], which throws when [options] has no such
    function. *)
Variable bindParam : value -> value -> outcome value.

(** [_stringify] and [_bindParam] of RANGE, on a receiver with the given
    [_subtype]: a value that is not an array is cast to the type that
    [toCastType] finds. *)
Definition RANGE_stringify (_subtype values options : value) : M value :=
  v ← lift_outcome (RANGE_value values options);
  match values with
  | VArray _ => mret (VStr ("'" ++ str v ++ "'"))
  | _ =>
      cast ← RANGE_toCastType _subtype;
      mret (VStr ("'" ++ str v ++ "'::" ++ str cast))
  end.

Definition RANGE_bindParam (_subtype values options : value) : M value :=
  v ← lift_outcome (RANGE_value values options);
  match values with
  | VArray _ => lift_outcome (bindParam options v)
  | _ =>
      bound ← lift_outcome (bindParam options v);
      cast ← RANGE_toCastType _subtype;
      mret (VStr (str bound ++ "::" ++ str cast))
  end.

(** [static parse(value, options = { parser: val => val })]: the default
    stands in for [undefined] only; [parse] of the module ['./range'] gets
    the value and [options.parser]. *)
Variable range_parse : value -> value -> outcome value.

Definition RANGE_parse (v options : value) : outcome value :=
  let options :=
    match options with
    | VUndefined => VObject [("parser", VFunction "val => val")]
    | _ => options
    end in
  parser ← member options "parser";
  range_parse v parser.

(** *** DATE: validate

    [super.validate(value)] is the host's; it returns or throws. *)
Variable super_validate : DataType -> value -> outcome value.

Definition DATE_validate (d : DataType) (v : value) : outcome value :=
  if negb (seq_num v Infinity) && negb (seq_num v NegInfinity)
  then super_validate d v
  else Return (VBool true).

(** *** BLOB: _hexify

    The template [E'\\\\x${hex}'] has two backslashes in its value. *)
Definition BLOB_hexify (hex : value) : value :=
  VStr ("E'\\x" ++ str hex ++ "'").

(** *** GEOMETRY and GEOGRAPHY: parse, _stringify and _bindParam

    [Buffer.from(value, 'hex')] is the engine's and
    [wkx.Geometry.parse(b).toGeoJSON({ shortCrs: true })] is wkx's; both
    return or throw.  [JSON.stringify] is the engine's. *)
Variable from_hex : value -> outcome (list Z).
Variable wkx_parse : list Z -> outcome value.
Variable JSON_stringify : value -> value.

Definition GEOMETRY_parse (v : value) : outcome value :=
  b ← from_hex v;
  wkx_parse b.

Definition GEOMETRY_stringify (v options : value) : outcome value :=
  s ← escape options (JSON_stringify v);
  mret (VStr ("ST_GeomFromGeoJSON(" ++ str s ++ ")")).

Definition GEOMETRY_bindParam (v options : value) : outcome value :=
  s ← bindParam options v;
  mret (VStr ("ST_GeomFromGeoJSON(" ++ str s ++ ")")).

Definition GEOGRAPHY_parse (v : value) : outcome value :=
  b ← from_hex v;
  wkx_parse b.

Definition GEOGRAPHY_stringify (v options : value) : outcome value :=
  s ← escape options (JSON_stringify v);
  mret (VStr ("ST_GeomFromGeoJSON(" ++ str s ++ ")")).

(** The class GEOGRAPHY names this method [bindParam], without the
    underscore. *)
Definition GEOGRAPHY_bindParam (v options : value) : outcome value :=
  s ← bindParam options v;
  mret (VStr ("ST_GeomFromGeoJSON(" ++ str s ++ ")")).

(** *** HSTORE: _bindParam

    In [options.bindParam(this._value(value))] the function is looked up
    before the argument is evaluated: without options the call throws
    before [_value] runs. *)
Definition HSTORE_bindParam (v options : value) : M value :=
  if is_nullish options then
    throw "TypeError: Cannot read properties of undefined (reading 'bindParam')"
  else
    s ← HSTORE_value v;
    lift_outcome (bindParam options (VStr s)).

(** *** ARRAY: the functions put on [BaseTypes.ARRAY.prototype]

    [this.type], the element type, is a data-type instance of any class or
    nothing.  Its [_value] and [stringify], where it has them, and
    [this.toSql()] run in the monad, since they may be operations of this
    file (an HSTORE element loads the parser, a TEXT element resets its
    length).  [elem_escape] is [this.type.escape], and [elem_bases] are the
    classes of the host that the element is an instance of. *)
Record Element : Type := mkElement {
  elem_value : option (value -> value -> M value);
  elem_stringify : option (value -> value -> M value);
  elem_escape : value;
  elem_bases : list positive
}.

Record Array_ : Type := mkArray {
  array_type : option Element;
  array_toSql : M value
}.

(** The callback of [values.map] in [_value]. *)
Definition ARRAY_item (t : option Element) (options v : value) : M value :=
  match t with
  | None => lift_outcome (escape options v)
  | Some e =>
      match (if truthy options && truthy (get options "bindParam")
             then elem_value e else None) with
      | Some _value => _value v options
      | None =>
          match elem_stringify e with
          | Some stringify =>
              v ← stringify v options;
              match elem_escape e with
              | VBool false => mret v
              | _ => lift_outcome (escape options v)
              end
          | None => lift_outcome (escape options v)
          end
      end
  end.

Fixpoint map_M {A B : Type} (f : A -> M B) (l : list A) : M (list B) :=
  match l with
  | [] => mret []
  | a :: rest =>
      b ← f a;
      bs ← map_M f rest;
      mret (b :: bs)
  end.

Definition ARRAY_value (a : Array_) (values : list value) (options : value)
  : M (list value) :=
  map_M (ARRAY_item (array_type a) options) values.

(** The double quote, the tick of [Utils.addTicks(s, tick)]. *)
Definition tick : string := String (ascii_of_nat 34) EmptyString.

(** From outside, for the cast of an array of enums:
    [options.field.Model.getTableName()] and [options.field.field], the
    caller's, as functions of [options]; [addTicks] and [generateEnumName]
    of the host's [Utils]. *)
Variable getTableName : value -> outcome value.
Variable field_name : value -> outcome value.
Variable addTicks : value -> string -> outcome value.
Variable generateEnumName : value -> value -> outcome value.

Definition ENUM_cast (options : value) : outcome string :=
  table ← getTableName options;
  schema ← member table "schema";
  let useSchema := negb (match schema with VUndefined => true | _ => false end) in
  schemaWithDelimiter ←
    (if useSchema then
       ticked ← addTicks schema tick;
       delimiter ← member table "delimiter";
       mret (str ticked ++ str delimiter)
     else mret "");
  tableName ← (if useSchema then member table "tableName" else mret table);
  field ← field_name options;
  name ← generateEnumName tableName field;
  ticked ← addTicks name tick;
  mret (schemaWithDelimiter ++ str ticked ++ "[]").

Definition ARRAY_stringify (a : Array_) (values : list value) (options : value)
  : M value :=
  vs ← ARRAY_value a values options;
  let s := "ARRAY[" ++ join_values NumberToString ObjectToString "," vs ++ "]" in
  match array_type a with
  | None => mret (VStr s)
  | Some e =>
      castKey ← array_toSql a;
      enum ← class_ref "ENUM";
      if bool_decide (enum ∈ elem_bases e) then
        cast ← lift_outcome (ENUM_cast options);
        mret (VStr (s ++ "::" ++ cast))
      else mret (VStr (s ++ "::" ++ str castKey))
  end.

(** As in HSTORE, [options.bindParam] is looked up first. *)
Definition ARRAY_bindParam (a : Array_) (values : list value) (options : value)
  : M value :=
  if is_nullish options then
    throw "TypeError: Cannot read properties of undefined (reading 'bindParam')"
  else
    vs ← ARRAY_value a values options;
    lift_outcome (bindParam options (VArray vs)).

End Kingbase8.

(** *** The module function

    [module.exports = BaseTypes => { ... }], statement by statement in the
    order of the file: the wire-type registrations, the class declarations
    with the names their bodies define, the assignments to the prototype of
    the host's ARRAY, and the returned table. *)
Definition dialect : string := "kingbase8".

Definition range_types : value :=
  VObject
    [("subtypes",
      VObject [("integer", VStr "int4range"); ("decimal", VStr "numrange");
               ("date", VStr "tstzrange"); ("dateonly", VStr "daterange");
               ("bigint", VStr "int8range")]);
     ("castTypes",
      VObject [("integer", VStr "int4"); ("decimal", VStr "numeric");
               ("date", VStr "timestamptz"); ("dateonly", VStr "date");
               ("bigint", VStr "int8")])].

Definition exports : M (list (string * Class)) :=
  class_ref "ABSTRACT";;
  set_types "UUID" dialect (wire ["uuid"]);;
  set_types "CIDR" dialect (wire ["cidr"]);;
  set_types "INET" dialect (wire ["inet"]);;
  set_types "MACADDR" dialect (wire ["macaddr"]);;
  set_types "TSVECTOR" dialect (wire ["tsvector"]);;
  set_types "JSON" dialect (wire ["json"]);;
  set_types "JSONB" dialect (wire ["jsonb"]);;
  set_types "TIME" dialect (wire ["time"]);;
  DATEONLY ← declare "DATEONLY" "DATEONLY" ["_stringify"; "_sanitize"] ["parse"];
  set_types "DATEONLY" dialect (wire ["date"]);;
  DECIMAL ← declare "DECIMAL" "DECIMAL" [] ["parse"];
  set_types "DECIMAL" dialect (wire ["numeric"]);;
  STRING ← declare "STRING" "STRING" ["toSql"] [];
  set_types "STRING" dialect (wire ["varchar"]);;
  TEXT ← declare "TEXT" "TEXT" ["toSql"] [];
  set_types "TEXT" dialect (wire ["text"]);;
  CITEXT ← declare "CITEXT" "CITEXT" [] ["parse"];
  set_types "CITEXT" dialect (wire ["citext"]);;
  CHAR ← declare "CHAR" "CHAR" ["toSql"] [];
  set_types "CHAR" dialect (wire ["char"; "bpchar"]);;
  BOOLEAN ← declare "BOOLEAN" "BOOLEAN" ["toSql"; "_sanitize"] [];
  let BOOLEAN := add_static "parse" BOOLEAN in
  set_types "BOOLEAN" dialect (wire ["bool"]);;
  DATE ← declare "DATE" "DATE" ["toSql"; "validate"; "_stringify"; "_sanitize"] [];
  set_types "DATE" dialect (wire ["timestamptz"]);;
  TINYINT ← declare "TINYINT" "TINYINT" ["constructor"] [];
  set_types "TINYINT" dialect (wire ["int2"]);;
  SMALLINT ← declare "SMALLINT" "SMALLINT" ["constructor"] [];
  set_types "SMALLINT" dialect (wire ["int2"]);;
  INTEGER ← declare "INTEGER" "INTEGER" ["constructor"] [];
  let INTEGER := add_static "parse" INTEGER in
  set_types "INTEGER" dialect (wire ["int4"]);;
  BIGINT ← declare "BIGINT" "BIGINT" ["constructor"] [];
  set_types "BIGINT" dialect (wire ["int8"]);;
  REAL ← declare "REAL" "REAL" ["constructor"] [];
  set_types "REAL" dialect (wire ["float4"]);;
  DOUBLE ← declare "DOUBLE" "DOUBLE" ["constructor"] [];
  set_types "DOUBLE" dialect (wire ["float8"]);;
  FLOAT ← declare "FLOAT" "FLOAT" ["constructor"] [];
  let FLOAT := delete_static "parse" FLOAT in
  BLOB ← declare "BLOB" "BLOB" ["toSql"; "_hexify"] [];
  set_types "BLOB" dialect (wire ["bytea"]);;
  GEOMETRY ← declare "GEOMETRY" "GEOMETRY" ["toSql"; "_stringify"; "_bindParam"] ["parse"];
  set_types "GEOMETRY" dialect (wire ["geometry"]);;
  GEOGRAPHY ← declare "GEOGRAPHY" "GEOGRAPHY" ["toSql"; "_stringify"; "bindParam"] ["parse"];
  set_types "GEOGRAPHY" dialect (wire ["geography"]);;
  modify (with_hstore None);;
  HSTORE ← declare "HSTORE" "HSTORE"
             ["constructor"; "_value"; "_stringify"; "_bindParam"] ["parse"];
  let HSTORE := add_proto "escape" HSTORE in
  set_types "HSTORE" dialect (wire ["hstore"]);;
  RANGE ← declare "RANGE" "RANGE"
            ["_value"; "_stringify"; "_bindParam"; "toSql"; "toCastType"] ["parse"];
  let RANGE := add_proto "escape" RANGE in
  set_types "RANGE" dialect range_types;;
  set_proto "ARRAY" "escape" (VBool false);;
  set_proto "ARRAY" "_value" (VFunction "_value");;
  set_proto "ARRAY" "_stringify" (VFunction "_stringify");;
  set_proto "ARRAY" "_bindParam" (VFunction "_bindParam");;
  ENUM ← declare "ENUM" "ENUM" [] ["parse"];
  set_types "ENUM" dialect (VArray [VNull]);;
  mret [("DECIMAL", DECIMAL); ("BLOB", BLOB); ("STRING", STRING);
        ("CHAR", CHAR); ("TEXT", TEXT); ("CITEXT", CITEXT);
        ("TINYINT", TINYINT); ("SMALLINT", SMALLINT); ("INTEGER", INTEGER);
        ("BIGINT", BIGINT); ("BOOLEAN", BOOLEAN); ("DATE", DATE);
        ("DATEONLY", DATEONLY); ("REAL", REAL); ("DOUBLE PRECISION", DOUBLE);
        ("FLOAT", FLOAT); ("GEOMETRY", GEOMETRY); ("GEOGRAPHY", GEOGRAPHY);
        ("HSTORE", HSTORE); ("RANGE", RANGE); ("ENUM", ENUM)].

End K.

(** ** The Dameng file *)

Module Dm.

Section Dmdb.

(** From outside: the engine's string conversions and [JSON.stringify];
    moment's [isMoment] and [format]; the host's base constructor and
    inherited methods; and [this._applyTimezone(date, options)], the method
    of the receiver's host class, which throws when that class has no such
    method (the call is then a TypeError) or when the method itself throws
    (as on missing options). *)
Variable NumberToString : float -> string.
Variable ObjectToString : value -> string.
Variable JSON_stringify : value -> value.
Variable isMoment : value -> bool.
Variable format : value -> string -> string.
Variable applyTimezone : DataType -> value -> value -> outcome value.
Variable base_new : string -> list value -> DataType.
Variable super : string -> string -> DataType -> list value -> value.

Local Abbreviation str := (ToString NumberToString ObjectToString).

(** [if (!moment.isMoment(date)) { date = this._applyTimezone(date, options); }] *)
Definition localize (d : DataType) (date options : value) : outcome value :=
  if negb (isMoment date) then applyTimezone d date options else Return date.

(** *** DECIMAL *)

Definition DECIMAL_toSql (d : DataType) : value :=
  let definition := super "DECIMAL" "toSql" d [] in
  let definition :=
    if truthy (_unsigned d) then VStr (str definition ++ " UNSIGNED")
    else definition in
  let definition :=
    if truthy (_zerofill d) then VStr (str definition ++ " ZEROFILL")
    else definition in
  definition.

(** *** DATE and TIME *)

Definition DATE_toSql (d : DataType) : value :=
  if truthy (_length d) then VStr ("TIMESTAMP(" ++ str (_length d) ++ ")")
  else VStr "TIMESTAMP".

(** [new Array(this._length).fill('S').join()]: without an argument
    [join] separates the elements by a comma. *)
Definition DATE_fraction (slots : nat) : string :=
  join "," (array_fill slots "S").

Definition DATE_stringify (d : DataType) (date options : value)
  : outcome value :=
  match localize d date options with
  | Throw e => Throw e
  | Return date =>
      if truthy (_length d) then
        match new_Array (_length d) with
        | Return slots =>
            Return (VStr (format date ("YYYY-MM-DD HH:mm:ss." ++ DATE_fraction slots)))
        | Throw e => Throw e
        end
      else Return (VStr (format date "YYYY-MM-DD HH:mm:ss"))
  end.

Definition TIME_toSql (d : DataType) : value :=
  VStr ("TIME" ++ (if truthy (_length d) then "(" ++ str (_length d) ++ ")"
                   else "")).

(** [new Array(this._length).fill('S').join('')] *)
Definition TIME_fraction (slots : nat) : string :=
  join "" (array_fill slots "S").

Definition TIME_stringify (d : DataType) (date options : value)
  : outcome value :=
  match localize d date options with
  | Throw e => Throw e
  | Return date =>
      if truthy (_length d) then
        match new_Array (_length d) with
        | Return slots =>
            Return (VStr (format date ("HH:mm:ss." ++ TIME_fraction slots)))
        | Throw e => Throw e
        end
      else Return (VStr (format date "HH:mm:ss"))
  end.

(** *** UUID, BOOLEAN, JSON *)

Definition UUID_toSql : value := VStr "CHAR(36) BINARY".
Definition BOOLEAN_toSql : value := VStr "BIT".

Definition JSON_stringify_ (v options : value) : outcome value :=
  if is_nullish options then
    Throw "TypeError: Cannot read properties of undefined (reading 'operation')"
  else
    Return (if seq_str (get options "operation") "where"
               && match v with VStr _ => true | _ => false end
            then v else JSON_stringify v).

(** *** GEOMETRY *)

Definition SUPPORTED_GEOMETRY_TYPES : list string :=
  ["POINT"; "LINESTRING"; "POLYGON"].

Definition GEOMETRY_new (type_ srid_ : value) : M unit :=
  modify (with_this (fun _ => base_new "GEOMETRY" [type_; srid_]));;
  d ← read this;
  if isEmpty (type d) then
    modify (with_this (set_sqlType (key d)))
  else if includes_str SUPPORTED_GEOMETRY_TYPES (type d) then
    modify (with_this (set_sqlType (type d)))
  else
    throw ("Supported geometry types are: "
           ++ join ", " SUPPORTED_GEOMETRY_TYPES).

Definition GEOMETRY_toSql (d : DataType) : value := sqlType d.

(** [GEOMETRY.parse], from the result of [value.buffer()] on, which is a
    Buffer or [null]: nothing or an empty buffer is [null]; otherwise the
    first four bytes are dropped and the rest goes to wkx
    ([wkx.Geometry.parse(value).toGeoJSON(...)], which returns or
    throws). *)
Variable wkx_parse : list Z -> outcome value.

Definition GEOMETRY_parse (buffer : option (list Z)) : outcome value :=
  match buffer with
  | None => Return VNull
  | Some bytes =>
      if (length bytes =? 0)%nat then Return VNull
      else wkx_parse (skipn 4 bytes)
  end.

(** *** The static [parse] of DATE, DATEONLY and GEOMETRY

    [value] is a field of the driver: [value.string()] and
    [value.buffer()] are the driver's, and return or throw.  Of
    moment-timezone, [tz_zone name] tells whether [tz.zone(name)] is truthy
    and [tz_toDate value name] is [tz(value, name).toDate()].  [new
    Date(string)] is the engine's, as are the properties of values that are
    not plain objects. *)
Variable field_string : value -> outcome value.
Variable field_buffer : value -> outcome (option (list Z)).
Variable tz_zone : value -> outcome bool.
Variable tz_toDate : value -> value -> outcome value.
Variable newDate : value -> float.
Variable engine_member : value -> string -> outcome value.

Definition DATE_parse (v options : value) : outcome value :=
  v ← field_string v;
  match v with
  | VNull => Return v
  | _ =>
      timezone ← K.member engine_member options "timezone";
      known ← tz_zone timezone;
      if known : bool then tz_toDate v timezone
      else Return (VDate (newDate (VStr (str v ++ " " ++ str timezone))))
  end.

Definition DATEONLY_parse (v : value) : outcome value := field_string v.

Definition GEOMETRY_parse_field (v : value) : outcome value :=
  buffer ← field_buffer v;
  GEOMETRY_parse buffer.

(** *** ENUM

    [this.values.map(value => options.escape(value)).join(', ')], with
    [options.escape(x)] the caller's: a function of [options] and [x]. *)
Variable escape : value -> value -> outcome value.

Fixpoint escape_all (options : value) (vs : list value)
  : outcome (list value) :=
  match vs with
  | [] => mret []
  | v :: rest =>
      e ← escape options v;
      es ← escape_all options rest;
      mret (e :: es)
  end.

Definition ENUM_toSql (d : DataType) (options : value) : outcome value :=
  match values d with
  | VArray vs =>
      es ← escape_all options vs;
      mret (VStr ("ENUM("
                  ++ join_values NumberToString ObjectToString ", " es
                  ++ ")"))
  | _ => Throw "TypeError: this.values.map is not a function"
  end.

End Dmdb.

(** *** The module function *)
Definition dialect : string := "dm".

Definition exports : M (list (string * Class)) :=
  set_proto "ABSTRACT" "dialectTypes"
    (VStr "https://eco.dameng.com/docs/zh-cn/sql-dev/dmpl-sql-datatype.html");;
  set_types "DATE" dialect (wire ["TIMESTAMP"]);;
  set_types "STRING" dialect (wire ["VAR_STRING"]);;
  set_types "CHAR" dialect (wire ["STRING"]);;
  set_types "TEXT" dialect (wire ["BLOB"]);;
  set_types "TINYINT" dialect (wire ["TINY"]);;
  set_types "SMALLINT" dialect (wire ["SHORT"]);;
  set_types "MEDIUMINT" dialect (wire ["INT24"]);;
  set_types "INTEGER" dialect (wire ["LONG"]);;
  set_types "BIGINT" dialect (wire ["LONGLONG"]);;
  set_types "FLOAT" dialect (wire ["FLOAT"]);;
  set_types "TIME" dialect (wire ["TIME"]);;
  set_types "DATEONLY" dialect (wire ["DATE"]);;
  set_types "BOOLEAN" dialect (wire ["TINY"]);;
  set_types "BLOB" dialect (wire ["TINYBLOB"; "BLOB"; "LONGBLOB"]);;
  set_types "DECIMAL" dialect (wire ["NEWDECIMAL"]);;
  set_types "UUID" dialect (VBool false);;
  set_types "ENUM" dialect (VBool false);;
  set_types "REAL" dialect (wire ["DOUBLE"]);;
  set_types "DOUBLE" dialect (wire ["DOUBLE"]);;
  set_types "GEOMETRY" dialect (wire ["GEOMETRY"]);;
  set_types "JSON" dialect (wire ["JSON"]);;
  DECIMAL ← declare "DECIMAL" "DECIMAL" ["toSql"] [];
  DATE ← declare "DATE" "DATE" ["toSql"; "_stringify"] ["parse"];
  DATEONLY ← declare "DATEONLY" "DATEONLY" [] ["parse"];
  TIME ← declare "TIME" "TIME" ["toSql"; "_stringify"] [];
  UUID ← declare "UUID" "UUID" ["toSql"] [];
  GEOMETRY ← declare "GEOMETRY" "GEOMETRY" ["constructor"; "toSql"] ["parse"];
  ENUM ← declare "ENUM" "ENUM" ["toSql"] [];
  JSONTYPE ← declare "JSONTYPE" "JSON" ["_stringify"] [];
  BOOLEAN ← declare "BOOLEAN" "BOOLEAN" ["toSql"] [];
  mret [("ENUM", ENUM); ("DATE", DATE); ("DATEONLY", DATEONLY);
        ("TIME", TIME); ("UUID", UUID); ("GEOMETRY", GEOMETRY);
        ("DECIMAL", DECIMAL); ("JSON", JSONTYPE); ("BOOLEAN", BOOLEAN)].

End Dm.

(** ** The public operations, as calls on a receiver

    A [method] names one of the operations that the classes of the two
    files define, together with its arguments; a [constructor] names one of
    the constructors.  [call] and [construct] run them in a world whose
    [this] is the receiver.  The three functions that the KingbaseES file
    puts on the prototype of the host's ARRAY are [array_method]s, run by
    [call_array] on an array type. *)
Inductive method : Type :=
| K_DATEONLY_stringify (v options : value)
| K_DATEONLY_sanitize (v options : value)
| K_DATEONLY_parse (v : value)
| K_DECIMAL_parse (v : value)
| K_CITEXT_parse (v : value)
| K_ENUM_parse (v : value)
| K_INTEGER_parse (v : value)
| K_STRING_toSql
| K_CHAR_toSql
| K_TEXT_toSql
| K_BLOB_toSql
| K_BOOLEAN_toSql
| K_BOOLEAN_sanitize (v : value)
| K_BOOLEAN_parse (v : value)
| K_DATE_toSql
| K_DATE_stringify (v options : value)
| K_DATE_sanitize (v options : value)
| K_GEOMETRY_toSql
| K_GEOGRAPHY_toSql
| K_HSTORE_stringify (v : value)
| K_HSTORE_parse (v : value)
| Dm_DECIMAL_toSql
| Dm_DATE_toSql
| Dm_DATE_stringify (date options : value)
| Dm_TIME_toSql
| Dm_TIME_stringify (date options : value)
| Dm_UUID_toSql
| Dm_BOOLEAN_toSql
| Dm_JSON_stringify (v options : value)
| Dm_GEOMETRY_toSql
| K_DATE_validate (v : value)
| K_BLOB_hexify (hex : value)
| K_GEOMETRY_parse (v : value)
| K_GEOMETRY_stringify (v options : value)
| K_GEOMETRY_bindParam (v options : value)
| K_GEOGRAPHY_parse (v : value)
| K_GEOGRAPHY_stringify (v options : value)
| K_GEOGRAPHY_bindParam (v options : value)
| K_HSTORE_value (v : value)
| K_HSTORE_bindParam (v options : value)
| K_RANGE_value (vs options : value)
| K_RANGE_stringify (vs options : value)
| K_RANGE_bindParam (vs options : value)
| K_RANGE_toSql
| K_RANGE_toCastType
| K_RANGE_parse (v options : value)
| Dm_DATE_parse (v options : value)
| Dm_DATEONLY_parse (v : value)
| Dm_GEOMETRY_parse (v : value)
| Dm_ENUM_toSql (options : value).

Inductive constructor : Type :=
| K_number_new (cls : string) (length : value)
| K_FLOAT_new (length decimals : value)
| K_HSTORE_new
| Dm_GEOMETRY_new (type_ srid_ : value).

Inductive array_method : Type :=
| K_ARRAY_value (vs : list value) (options : value)
| K_ARRAY_stringify (vs : list value) (options : value)
| K_ARRAY_bindParam (vs : list value) (options : value).

Definition on_this {A} (f : DataType -> A) : M A := read (fun w => f (this w)).

Definition lift {A} (o : outcome A) : M A := fun w => (o, w).

(** Everything the two files take from the engine, from moment, wkx and
    the driver, from the host and from the caller.  A function that the
    caller hands in ([options.escape], [options.bindParam],
    [options.parser] through [range_parse], the stringify of a range's
    subtype, the readers of a field) is given by what it answers at the
    time of the call: what state it keeps is the caller's and no part of
    the world. *)
Record Env : Type := mkEnv {
  NumberToString : float -> string;
  ObjectToString : value -> string;
  JSON_stringify : value -> value;
  newDate : value -> float;
  parseInt10 : value -> float;
  isMoment : value -> bool;
  format : value -> string -> string;
  applyTimezone : DataType -> value -> value -> outcome value;
  base_new : string -> list value -> DataType;
  super : string -> string -> DataType -> list value -> value;
  hstore_stringify : value -> string;
  hstore_parse : value -> value;
  super_validate : DataType -> value -> outcome value;
  from_hex : value -> outcome (list Z);
  wkx_parse : list Z -> outcome value;
  escape : value -> value -> outcome value;
  bindParam : value -> value -> outcome value;
  range_stringify : list value -> list value -> string;
  range_parse : value -> value -> outcome value;
  subtype_stringify : DataType -> option (value -> value -> value);
  engine_member : value -> string -> outcome value;
  field_string : value -> outcome value;
  field_buffer : value -> outcome (option (list Z));
  tz_zone : value -> outcome bool;
  tz_toDate : value -> value -> outcome value;
  getTableName : value -> outcome value;
  field_name : value -> outcome value;
  addTicks : value -> string -> outcome value;
  generateEnumName : value -> value -> outcome value
}.

Definition RANGE_value (E : Env) (d : DataType) (vs options : value)
  : outcome value :=
  K.RANGE_value (range_stringify E) (subtype_stringify E d) (escape E)
                vs options.

Definition call (E : Env) (m : method) : M value :=
  match m with
  | K_DATEONLY_stringify v o => on_this (fun d => K.DATEONLY_stringify (super E) d v o)
  | K_DATEONLY_sanitize v o => on_this (fun d => K.DATEONLY_sanitize (super E) d v o)
  | K_DATEONLY_parse v => mret (K.DATEONLY_parse v)
  | K_DECIMAL_parse v => mret (K.DECIMAL_parse v)
  | K_CITEXT_parse v => mret (K.CITEXT_parse v)
  | K_ENUM_parse v => mret (K.ENUM_parse v)
  | K_INTEGER_parse v => mret (K.INTEGER_parse (parseInt10 E) v)
  | K_STRING_toSql => on_this (K.STRING_toSql (super E))
  | K_CHAR_toSql => on_this (K.CHAR_toSql (super E))
  | K_TEXT_toSql => K.TEXT_toSql
  | K_BLOB_toSql => K.BLOB_toSql
  | K_BOOLEAN_toSql => mret K.BOOLEAN_toSql
  | K_BOOLEAN_sanitize v => mret (K.BOOLEAN_sanitize v)
  | K_BOOLEAN_parse v => mret (K.BOOLEAN_parse v)
  | K_DATE_toSql => mret K.DATE_toSql
  | K_DATE_stringify v o => on_this (fun d => K.DATE_stringify (super E) d v o)
  | K_DATE_sanitize v o => mret (K.DATE_sanitize (newDate E) v o)
  | K_GEOMETRY_toSql =>
      on_this (K.GEOMETRY_toSql (NumberToString E) (ObjectToString E))
  | K_GEOGRAPHY_toSql =>
      on_this (K.GEOGRAPHY_toSql (NumberToString E) (ObjectToString E))
  | K_HSTORE_stringify v => K.HSTORE_stringify (hstore_stringify E) v
  | K_HSTORE_parse v => K.HSTORE_parse (hstore_parse E) v
  | Dm_DECIMAL_toSql =>
      on_this (Dm.DECIMAL_toSql (NumberToString E) (ObjectToString E) (super E))
  | Dm_DATE_toSql =>
      on_this (Dm.DATE_toSql (NumberToString E) (ObjectToString E))
  | Dm_DATE_stringify date o =>
      d ← read this;
      lift (Dm.DATE_stringify (isMoment E) (format E) (applyTimezone E) d date o)
  | Dm_TIME_toSql =>
      on_this (Dm.TIME_toSql (NumberToString E) (ObjectToString E))
  | Dm_TIME_stringify date o =>
      d ← read this;
      lift (Dm.TIME_stringify (isMoment E) (format E) (applyTimezone E) d date o)
  | Dm_UUID_toSql => mret Dm.UUID_toSql
  | Dm_BOOLEAN_toSql => mret Dm.BOOLEAN_toSql
  | Dm_JSON_stringify v o => lift (Dm.JSON_stringify_ (JSON_stringify E) v o)
  | Dm_GEOMETRY_toSql => on_this Dm.GEOMETRY_toSql
  | K_DATE_validate v =>
      d ← read this;
      lift (K.DATE_validate (super_validate E) d v)
  | K_BLOB_hexify hex =>
      mret (K.BLOB_hexify (NumberToString E) (ObjectToString E) hex)
  | K_GEOMETRY_parse v => lift (K.GEOMETRY_parse (from_hex E) (wkx_parse E) v)
  | K_GEOMETRY_stringify v o =>
      lift (K.GEOMETRY_stringify (NumberToString E) (ObjectToString E)
              (escape E) (JSON_stringify E) v o)
  | K_GEOMETRY_bindParam v o =>
      lift (K.GEOMETRY_bindParam (NumberToString E) (ObjectToString E)
              (bindParam E) v o)
  | K_GEOGRAPHY_parse v => lift (K.GEOGRAPHY_parse (from_hex E) (wkx_parse E) v)
  | K_GEOGRAPHY_stringify v o =>
      lift (K.GEOGRAPHY_stringify (NumberToString E) (ObjectToString E)
              (escape E) (JSON_stringify E) v o)
  | K_GEOGRAPHY_bindParam v o =>
      lift (K.GEOGRAPHY_bindParam (NumberToString E) (ObjectToString E)
              (bindParam E) v o)
  | K_HSTORE_value v =>
      s ← K.HSTORE_value (hstore_stringify E) v;
      mret (VStr s)
  | K_HSTORE_bindParam v o =>
      K.HSTORE_bindParam (hstore_stringify E) (bindParam E) v o
  | K_RANGE_value vs o =>
      d ← read this;
      lift (RANGE_value E d vs o)
  | K_RANGE_stringify vs o =>
      d ← read this;
      K.RANGE_stringify (NumberToString E) (ObjectToString E)
        (range_stringify E) (subtype_stringify E d) (escape E)
        (engine_member E) (_subtype d) vs o
  | K_RANGE_bindParam vs o =>
      d ← read this;
      K.RANGE_bindParam (NumberToString E) (ObjectToString E)
        (range_stringify E) (subtype_stringify E d) (escape E)
        (engine_member E) (bindParam E) (_subtype d) vs o
  | K_RANGE_toSql =>
      d ← read this;
      K.RANGE_toSql (engine_member E) (_subtype d)
  | K_RANGE_toCastType =>
      d ← read this;
      K.RANGE_toCastType (engine_member E) (_subtype d)
  | K_RANGE_parse v o =>
      lift (K.RANGE_parse (engine_member E) (range_parse E) v o)
  | Dm_DATE_parse v o =>
      lift (Dm.DATE_parse (NumberToString E) (ObjectToString E)
              (field_string E) (tz_zone E) (tz_toDate E) (newDate E)
              (engine_member E) v o)
  | Dm_DATEONLY_parse v => lift (Dm.DATEONLY_parse (field_string E) v)
  | Dm_GEOMETRY_parse v =>
      lift (Dm.GEOMETRY_parse_field (wkx_parse E) (field_buffer E) v)
  | Dm_ENUM_toSql o =>
      d ← read this;
      lift (Dm.ENUM_toSql (NumberToString E) (ObjectToString E) (escape E) d o)
  end.

Definition construct (E : Env) (c : constructor) : M unit :=
  match c with
  | K_number_new cls length =>
      K.number_new (NumberToString E) (ObjectToString E) (base_new E) cls length
  | K_FLOAT_new length decimals => K.FLOAT_new (base_new E) length decimals
  | K_HSTORE_new => K.HSTORE_new (base_new E)
  | Dm_GEOMETRY_new type_ srid_ => Dm.GEOMETRY_new (base_new E) type_ srid_
  end.

Definition call_array (E : Env) (a : K.Array_) (m : array_method)
  : M value :=
  match m with
  | K_ARRAY_value vs o =>
      xs ← K.ARRAY_value (escape E) a vs o;
      mret (VArray xs)
  | K_ARRAY_stringify vs o =>
      K.ARRAY_stringify (NumberToString E) (ObjectToString E) (escape E)
        (engine_member E) (getTableName E) (field_name E) (addTicks E)
        (generateEnumName E) a vs o
  | K_ARRAY_bindParam vs o =>
      K.ARRAY_bindParam (escape E) (bindParam E) a vs o
  end.

(** The two operations that write to their receiver; the operations that
    load the module ['./hstore'] into the variable [hstore] when it is
    unset; the operations that read the tables registered on the host's
    RANGE. *)
Definition resets_length (m : method) : bool :=
  match m with K_TEXT_toSql | K_BLOB_toSql => true | _ => false end.

Definition uses_hstore (m : method) : bool :=
  match m with
  | K_HSTORE_stringify _ | K_HSTORE_parse _ | K_HSTORE_value _ => true
  | K_HSTORE_bindParam _ options => negb (is_nullish options)
  | _ => false
  end.

Definition reads_host (m : method) : bool :=
  match m with
  | K_RANGE_toSql | K_RANGE_toCastType
  | K_RANGE_stringify _ _ | K_RANGE_bindParam _ _ => true
  | _ => false
  end.

(** The operations that call a function handed in by the caller:
    [options.escape], [options.bindParam], [options.parser], the stringify
    of a range's subtype, or a reader of the driver's field.  Such a
    function may keep state of its own (the bind parameters collected so
    far, the packet behind a field) and answer a second call differently. *)
Definition calls_back (m : method) : bool :=
  match m with
  | K_GEOMETRY_stringify _ _ | K_GEOMETRY_bindParam _ _
  | K_GEOGRAPHY_stringify _ _ | K_GEOGRAPHY_bindParam _ _
  | K_HSTORE_bindParam _ _
  | K_RANGE_value _ _ | K_RANGE_stringify _ _ | K_RANGE_bindParam _ _
  | K_RANGE_parse _ _
  | Dm_DATE_parse _ _ | Dm_DATEONLY_parse _ | Dm_GEOMETRY_parse _
  | Dm_ENUM_toSql _ => true
  | _ => false
  end.

(** ** Sample data for the examples

    A base constructor in the manner of the host's.  For the numbers, a
    number is a length and anything else than [undefined] is the options
    itself; FLOAT, REAL and DOUBLE take an object as the options and
    anything else as the length, next to the decimals.  The fields are the
    properties of the options of the same names, and a string, an array or
    a buffer has a [length] that cannot be assigned.  For GEOMETRY the two
    arguments are the type and the srid, or the first one holds both. *)
Definition number_options (a : value) : value :=
  match a with
  | VUndefined => VObject []
  | VNum _ => VObject [("length", a)]
  | _ => a
  end.

Definition float_options (length decimals : value) : value :=
  match length with
  | VObject _ | VArray _ | VDate _ | VBuffer _ => length
  | _ => VObject [("length", length); ("decimals", decimals)]
  end.

Definition number_of_nat (n : nat) : value :=
  VNum (PrimFloat.of_uint63 (Uint63.of_Z (Z.of_nat n))).

Definition sample_prop (o : value) (k : string) : value :=
  match o with
  | VStr s => if String.eqb k "length" then number_of_nat (String.length s)
              else VUndefined
  | VArray xs => if String.eqb k "length" then number_of_nat (length xs)
                 else VUndefined
  | VBuffer b => if String.eqb k "length" then number_of_nat (length b)
                 else VUndefined
  | _ => get o k
  end.

Definition sample_locked (o : value) : option string :=
  match o with
  | VObject _ | VDate _ => None
  | VArray _ => Some "RangeError: Invalid array length"
  | _ => Some "TypeError: Cannot assign to read only property 'length'"
  end.

Definition sample_base (cls : string) (args : list value) : DataType :=
  let a := nth 0 args VUndefined in
  let b := nth 1 args VUndefined in
  if String.eqb cls "GEOMETRY" then
    let o := match a with
             | VObject _ => a
             | _ => VObject [("type", a); ("srid", b)]
             end in
    mkDataType (VStr cls) VUndefined VUndefined VUndefined VUndefined
               VUndefined VUndefined (get o "type") (get o "srid") VUndefined
               None VUndefined VUndefined
  else
    let o := if existsb (String.eqb cls) ["FLOAT"; "REAL"; "DOUBLE"]
             then float_options a b else number_options a in
    mkDataType (VStr cls) (sample_prop o "length") (sample_prop o "length")
               (sample_prop o "unsigned") (sample_prop o "zerofill")
               (sample_prop o "decimals")
               VUndefined VUndefined VUndefined VUndefined
               (sample_locked o) VUndefined VUndefined.

(** A moment is an object with the mark [_isAMomentObject]; formatting
    shows the pattern; [_applyTimezone] is missing on TIME, as in the host,
    and needs options elsewhere. *)
Definition moment (date : value) : value :=
  VObject [("_isAMomentObject", VBool true); ("_i", date)].

Definition sample_applyTimezone (d : DataType) (date options : value)
  : outcome value :=
  if seq_str (key d) "TIME" then
    Throw "TypeError: this._applyTimezone is not a function"
  else if is_nullish options then
    Throw "TypeError: Cannot read properties of undefined (reading 'timezone')"
  else Return (moment date).

Definition sample_call (name : string) (options x : value) : outcome value :=
  match get options name with
  | VFunction _ => Return (VStr (name ++ "(" ++ ToString (fun _ => "0") (fun _ => "[object Object]") x ++ ")"))
  | _ => Throw ("TypeError: options." ++ name ++ " is not a function")
  end.

Definition sample_env_with (base : string -> list value -> DataType) : Env :=
  {| NumberToString := fun _ => "0";
     ObjectToString := fun _ => "[object Object]";
     JSON_stringify := fun v => v;
     newDate := fun _ => 0%float;
     parseInt10 := fun _ => nan;
     isMoment := fun v => negb (is_nullish (get v "_isAMomentObject"));
     format := fun _ pattern => pattern;
     applyTimezone := sample_applyTimezone;
     base_new := base;
     super := fun _ _ _ _ => VUndefined;
     hstore_stringify := fun _ => "";
     hstore_parse := fun v => v;
     super_validate := fun _ _ => Return (VBool true);
     from_hex := fun v => match v with
                          | VBuffer b => Return b
                          | VStr _ => Return []
                          | _ => Throw "TypeError: The first argument must be of type string"
                          end;
     wkx_parse := fun b => match b with
                           | [] => Throw "Error: Expected more bytes"
                           | _ => Return (VObject [("type", VStr "Point")])
                           end;
     escape := sample_call "escape";
     bindParam := sample_call "bindParam";
     range_stringify := fun _ _ => "[,)";
     range_parse := fun v parser => Return (VArray [v; parser]);
     subtype_stringify := fun _ => None;
     engine_member := fun _ _ => Return VUndefined;
     field_string := fun v => match v with
                              | VObject _ => Return (get v "string")
                              | _ => Throw "TypeError: value.string is not a function"
                              end;
     field_buffer := fun v => match get v "buffer" with
                              | VBuffer b => Return (Some b)
                              | _ => Return None
                              end;
     tz_zone := fun name => Return (seq_str name "UTC");
     tz_toDate := fun _ _ => Return (VDate 0);
     getTableName := fun options => Return (get options "table");
     field_name := fun options => Return (get options "field");
     addTicks := fun v t => match v with
                            | VStr s => Return (VStr (t ++ s ++ t))
                            | _ => Throw "TypeError: s.replace is not a function"
                            end;
     generateEnumName := fun t c =>
       match t, c with
       | VStr t, VStr c => Return (VStr ("enum_" ++ t ++ "_" ++ c))
       | _, _ => Return (VStr "enum")
       end |}.

Definition sample_env : Env := sample_env_with sample_base.

(** What the host's FLOAT leaves for the frozen options
    [{ length: 10, decimals: 2, unsigned: true }]. *)
Definition frozen_float : DataType :=
  mkDataType (VStr "FLOAT") (VNum 10) (VNum 10) (VBool true)
             VUndefined (VNum 2) VUndefined VUndefined VUndefined VUndefined
             (Some "TypeError: Cannot assign to read only property 'length'")
             VUndefined VUndefined.

Definition blank : DataType :=
  mkDataType (VStr "TEXT") VUndefined VUndefined VUndefined VUndefined
             VUndefined VUndefined VUndefined VUndefined VUndefined
             None VUndefined VUndefined.

Definition empty_host : Host := mkHost ∅ ∅.

Definition sample_world : World := mkWorld blank [] None empty_host.

Definition tiny_text : World :=
  mkWorld (set_length (VStr "tiny") blank) [] None empty_host.

Definition constructs_hstore (c : constructor) : bool :=
  match c with K_HSTORE_new => true | _ => false end.

(** [if (!hstore) { hstore = require('./hstore'); }] on the variable alone *)
Definition loaded (h : option module_ref) : option module_ref :=
  match h with None => Some HstoreModule | Some m => Some m end.

(** [host_reader m]: the computation [m] changes nothing, and its result
    depends on the world through the host's classes only. *)
Definition host_reader {A} (m : M A) : Prop :=
  (forall w, final (m w) = w)
  /\ (forall w w', host w' = host w -> result (m w') = result (m w)).

(** [module_frame w w']: from [w] to [w'] the host's classes are the same
    and the variable [hstore] is the same or has been loaded.
    [keeps_module_state m]: every run of [m] is such a step.  For an array
    type, [array_keeps a] says so of the operations of its element type
    that the functions on the prototype of ARRAY call, and of its
    [toSql]. *)
Definition module_frame (w w' : World) : Prop :=
  host w' = host w
  /\ (hstore w' = hstore w \/ hstore w' = loaded (hstore w)).

Definition keeps_module_state {A} (m : M A) : Prop :=
  forall w, module_frame w (final (m w)).

Definition element_keeps (e : K.Element) : Prop :=
  (forall f, K.elem_value e = Some f ->
             forall v options, keeps_module_state (f v options))
  /\ (forall f, K.elem_stringify e = Some f ->
                forall v options, keeps_module_state (f v options)).

Definition array_keeps (a : K.Array_) : Prop :=
  keeps_module_state (K.array_toSql a)
  /\ (forall e, K.array_type a = Some e -> element_keeps e).

(** An array of HSTORE: the element type has the [_value] of the class
    HSTORE of the KingbaseES file, the host's [stringify] goes to its
    [_stringify], and its prototype has [escape] set to [false]. *)
Definition hstore_element (E : Env) : K.Element :=
  K.mkElement
    (Some (fun v _ => s ← K.HSTORE_value (hstore_stringify E) v; mret (VStr s)))
    (Some (fun v _ => K.HSTORE_stringify (hstore_stringify E) v))
    (VBool false)
    [].

Definition hstore_array (E : Env) : K.Array_ :=
  K.mkArray (Some (hstore_element E)) (mret (VStr "HSTORE[]")).

(** An array of ENUM on the sample host, where ENUM is the class 26: the
    element type has the host's [stringify], which leaves the value to
    [escape]. *)
Definition enum_array : K.Array_ :=
  K.mkArray (Some (K.mkElement None (Some (fun v _ => mret v)) VUndefined [26%positive]))
            (mret (VStr "ENUM[]")).

(** ** What a dialect module does to the host

    [types_frame k h0 h]: the class objects of [h] are those of [h0], with
    the same [types] under every dialect key other than [k].
    [registered k h cls]: the class named [cls] has wire types under [k].
    [module_law k regs T h0 h]: from the host [h0] the module went to [h],
    changing no name and no wire type under another key than [k],
    registering the classes [regs] under [k], and returning the table [T],
    each entry of which extends the class that [BaseTypes] has under the
    entry's name. *)
Definition types_frame (k : string) (h0 h : Host) : Prop :=
  forall l,
    match classes h0 !! l, classes h !! l with
    | Some c, Some c' => forall k', k' <> k -> types c' !! k' = types c !! k'
    | None, None => True
    | _, _ => False
    end.

Definition registered (k : string) (h : Host) (cls : string) : Prop :=
  exists l c v,
    names h !! cls = Some l /\ classes h !! l = Some c
    /\ types c !! k = Some v.



(** Weakest preconditions and triples for the monad; an exception
    satisfies every postcondition. *)
Definition wp {A} (m : M A) (Q : A -> World -> Prop) (w : World) : Prop :=
  match m w with
  | (Return a, w') => Q a w'
  | (Throw _, _) => True
  end.

Definition hoare {A} (P : World -> Prop) (m : M A) (Q : A -> World -> Prop)
  : Prop :=
  forall w, P w -> wp m Q w.


(** A host with one class object per name, and DOUBLE under two names. *)
Definition sample_names : list (string * positive) :=
  [("ABSTRACT", 1); ("STRING", 2); ("CHAR", 3); ("TEXT", 4); ("CITEXT", 5);
   ("TINYINT", 6); ("SMALLINT", 7); ("MEDIUMINT", 8); ("INTEGER", 9);
   ("BIGINT", 10); ("FLOAT", 11); ("REAL", 12); ("DOUBLE", 13);
   ("DOUBLE PRECISION", 13); ("DECIMAL", 14); ("BOOLEAN", 15); ("TIME", 16);
   ("DATE", 17); ("DATEONLY", 18); ("HSTORE", 19); ("JSON", 20);
   ("JSONB", 21); ("BLOB", 22); ("RANGE", 23); ("UUID", 24); ("ARRAY", 25);
   ("ENUM", 26); ("GEOMETRY", 27); ("GEOGRAPHY", 28); ("CIDR", 29);
   ("INET", 30); ("MACADDR", 31); ("TSVECTOR", 32)]%positive.

Definition sample_host : Host :=
  mkHost (list_to_map sample_names)
         (list_to_map (map (fun e => (snd e, mkClassObj ∅ ∅)) sample_names)).

Definition host_world : World := mkWorld blank [] None sample_host.

Definition returned {A} (d : A) (o : outcome A) : A :=
  match o with Return a => a | Throw _ => d end.

Definition set_srid (v : value) (d : DataType) : DataType :=
  mkDataType (key d) (_length d) (options_length d) (_unsigned d) (_zerofill d)
             (_decimals d) (_binary d) (type d) v (sqlType d) (options_locked d)
             (_subtype d) (values d).

(** ** More on what a dialect module does to the host

    [proto_frame cls0 h0 h]: the class objects of [h] have the prototypes
    they have in [h0], except the object named [cls0].
    [types_at k h0 h (cls, v)]: the class named [cls] has exactly the wire
    types [v] under [k]; [proto_at h0 h (cls, prop, v)]: its prototype has
    [v] under [prop].
    [distinct h regs]: the names [regs] denote pairwise different class
    objects.  [named h cls]: [BaseTypes] has a property [cls].
    [wf_host h]: every property of [BaseTypes] holds a class object. *)
Definition proto_frame (cls0 : string) (h0 h : Host) : Prop :=
  forall l,
    names h0 !! cls0 <> Some l ->
    match classes h0 !! l, classes h !! l with
    | Some c, Some c' => proto c' = proto c
    | None, None => True
    | _, _ => False
    end.

Definition types_at (k : string) (h0 h : Host) (e : string * value) : Prop :=
  exists l c,
    names h0 !! fst e = Some l /\ classes h !! l = Some c
    /\ types c !! k = Some (snd e).

Definition proto_at (h0 h : Host) (e : string * string * value) : Prop :=
  exists l c,
    names h0 !! fst (fst e) = Some l /\ classes h !! l = Some c
    /\ proto c !! snd (fst e) = Some (snd e).

Definition distinct (h : Host) (regs : list string) : Prop :=
  forall a b l,
    In a regs -> In b regs ->
    names h !! a = Some l -> names h !! b = Some l -> a = b.

Definition named (h : Host) (cls : string) : Prop := is_Some (names h !! cls).

Definition wf_host (h : Host) : Prop :=
  forall cls l, names h !! cls = Some l -> is_Some (classes h !! l).

(** [always I m]: [m] keeps [I], whether it returns or throws.
    [thoare P m Q]: from [P], [m] returns, in [Q]. *)
Definition always {A} (I : World -> Prop) (m : M A) : Prop :=
  forall w, I w -> I (snd (m w)).

Definition twp {A} (m : M A) (Q : A -> World -> Prop) (w : World) : Prop :=
  match m w with
  | (Return a, w') => Q a w'
  | (Throw _, _) => False
  end.

Definition thoare {A} (P : World -> Prop) (m : M A) (Q : A -> World -> Prop)
  : Prop :=
  forall w, P w -> twp m Q w.

(** The invariants of the module functions: what holds all along
    ([Frame]), what has been done so far when no statement threw ([Full]),
    and what makes the rest go through ([Ready]). *)
Definition Frame (k cls0 : string) (w0 w : World) : Prop :=
  this w = this w0 /\ warned w = warned w0
  /\ names (host w) = names (host w0)
  /\ types_frame k (host w0) (host w)
  /\ proto_frame cls0 (host w0) (host w).

Definition Full (k : string) (h0 : Host) (regs : list string)
    (S : list (string * value)) (P : list (string * string * value))
    (G N : list string) (w : World) : Prop :=
  names (host w) = names h0
  /\ (distinct h0 regs -> Forall (types_at k h0 (host w)) S)
  /\ Forall (proto_at h0 (host w)) P
  /\ Forall (registered k (host w)) G
  /\ Forall (named h0) N.

Definition Ready (h0 : Host) (w : World) : Prop :=
  names (host w) = names h0
  /\ forall l, is_Some (classes h0 !! l) -> is_Some (classes (host w) !! l).

(** The tables the module functions return, given the class object [loc]
    that [BaseTypes] has under each name. *)
Definition K_table (loc : string -> positive) : list (string * Class) :=
  [("DECIMAL", mkClass "DECIMAL" (loc "DECIMAL") [] ["parse"]);
   ("BLOB", mkClass "BLOB" (loc "BLOB") ["toSql"; "_hexify"] []);
   ("STRING", mkClass "STRING" (loc "STRING") ["toSql"] []);
   ("CHAR", mkClass "CHAR" (loc "CHAR") ["toSql"] []);
   ("TEXT", mkClass "TEXT" (loc "TEXT") ["toSql"] []);
   ("CITEXT", mkClass "CITEXT" (loc "CITEXT") [] ["parse"]);
   ("TINYINT", mkClass "TINYINT" (loc "TINYINT") ["constructor"] []);
   ("SMALLINT", mkClass "SMALLINT" (loc "SMALLINT") ["constructor"] []);
   ("INTEGER", mkClass "INTEGER" (loc "INTEGER") ["constructor"] ["parse"]);
   ("BIGINT", mkClass "BIGINT" (loc "BIGINT") ["constructor"] []);
   ("BOOLEAN", mkClass "BOOLEAN" (loc "BOOLEAN") ["toSql"; "_sanitize"] ["parse"]);
   ("DATE", mkClass "DATE" (loc "DATE")
              ["toSql"; "validate"; "_stringify"; "_sanitize"] []);
   ("DATEONLY", mkClass "DATEONLY" (loc "DATEONLY")
                  ["_stringify"; "_sanitize"] ["parse"]);
   ("REAL", mkClass "REAL" (loc "REAL") ["constructor"] []);
   ("DOUBLE PRECISION", mkClass "DOUBLE" (loc "DOUBLE") ["constructor"] []);
   ("FLOAT", mkClass "FLOAT" (loc "FLOAT") ["constructor"] []);
   ("GEOMETRY", mkClass "GEOMETRY" (loc "GEOMETRY")
                  ["toSql"; "_stringify"; "_bindParam"] ["parse"]);
   ("GEOGRAPHY", mkClass "GEOGRAPHY" (loc "GEOGRAPHY")
                   ["toSql"; "_stringify"; "bindParam"] ["parse"]);
   ("HSTORE", mkClass "HSTORE" (loc "HSTORE")
                ["constructor"; "_value"; "_stringify"; "_bindParam"; "escape"]
                ["parse"]);
   ("RANGE", mkClass "RANGE" (loc "RANGE")
               ["_value"; "_stringify"; "_bindParam"; "toSql"; "toCastType";
                "escape"]
               ["parse"]);
   ("ENUM", mkClass "ENUM" (loc "ENUM") [] ["parse"])].

Definition Dm_table (loc : string -> positive) : list (string * Class) :=
  [("ENUM", mkClass "ENUM" (loc "ENUM") ["toSql"] []);
   ("DATE", mkClass "DATE" (loc "DATE") ["toSql"; "_stringify"] ["parse"]);
   ("DATEONLY", mkClass "DATEONLY" (loc "DATEONLY") [] ["parse"]);
   ("TIME", mkClass "TIME" (loc "TIME") ["toSql"; "_stringify"] []);
   ("UUID", mkClass "UUID" (loc "UUID") ["toSql"] []);
   ("GEOMETRY", mkClass "GEOMETRY" (loc "GEOMETRY") ["constructor"; "toSql"]
                  ["parse"]);
   ("DECIMAL", mkClass "DECIMAL" (loc "DECIMAL") ["toSql"] []);
   ("JSON", mkClass "JSONTYPE" (loc "JSON") ["_stringify"] []);
   ("BOOLEAN", mkClass "BOOLEAN" (loc "BOOLEAN") ["toSql"] [])].

Definition resolve (h : Host) (cls : string) : positive :=
  default 1%positive (names h !! cls).

(** The names of [BaseTypes] the module functions use. *)
Definition K_names : list string :=
  ["ABSTRACT"; "UUID"; "CIDR"; "INET"; "MACADDR"; "TSVECTOR"; "JSON"; "JSONB";
   "TIME"; "DATEONLY"; "DECIMAL"; "STRING"; "TEXT"; "CITEXT"; "CHAR";
   "BOOLEAN"; "DATE"; "TINYINT"; "SMALLINT"; "INTEGER"; "BIGINT"; "REAL";
   "DOUBLE"; "FLOAT"; "BLOB"; "GEOMETRY"; "GEOGRAPHY"; "HSTORE"; "RANGE";
   "ARRAY"; "ENUM"].

Definition Dm_names : list string :=
  ["ABSTRACT"; "DATE"; "STRING"; "CHAR"; "TEXT"; "TINYINT"; "SMALLINT";
   "MEDIUMINT"; "INTEGER"; "BIGINT"; "FLOAT"; "TIME"; "DATEONLY"; "BOOLEAN";
   "BLOB"; "DECIMAL"; "UUID"; "ENUM"; "REAL"; "DOUBLE"; "GEOMETRY"; "JSON"].

(** The wire types the module functions assign. *)
Definition K_types : list (string * value) :=
  [("UUID", wire ["uuid"]); ("CIDR", wire ["cidr"]); ("INET", wire ["inet"]);
   ("MACADDR", wire ["macaddr"]); ("TSVECTOR", wire ["tsvector"]);
   ("JSON", wire ["json"]); ("JSONB", wire ["jsonb"]); ("TIME", wire ["time"]);
   ("DATEONLY", wire ["date"]); ("DECIMAL", wire ["numeric"]);
   ("STRING", wire ["varchar"]); ("TEXT", wire ["text"]);
   ("CITEXT", wire ["citext"]); ("CHAR", wire ["char"; "bpchar"]);
   ("BOOLEAN", wire ["bool"]); ("DATE", wire ["timestamptz"]);
   ("TINYINT", wire ["int2"]); ("SMALLINT", wire ["int2"]);
   ("INTEGER", wire ["int4"]); ("BIGINT", wire ["int8"]);
   ("REAL", wire ["float4"]); ("DOUBLE", wire ["float8"]);
   ("BLOB", wire ["bytea"]); ("GEOMETRY", wire ["geometry"]);
   ("GEOGRAPHY", wire ["geography"]); ("HSTORE", wire ["hstore"]);
   ("RANGE", K.range_types); ("ENUM", VArray [VNull])].

Definition Dm_types : list (string * value) :=
  [("DATE", wire ["TIMESTAMP"]); ("STRING", wire ["VAR_STRING"]);
   ("CHAR", wire ["STRING"]); ("TEXT", wire ["BLOB"]);
   ("TINYINT", wire ["TINY"]); ("SMALLINT", wire ["SHORT"]);
   ("MEDIUMINT", wire ["INT24"]); ("INTEGER", wire ["LONG"]);
   ("BIGINT", wire ["LONGLONG"]); ("FLOAT", wire ["FLOAT"]);
   ("TIME", wire ["TIME"]); ("DATEONLY", wire ["DATE"]);
   ("BOOLEAN", wire ["TINY"]); ("BLOB", wire ["TINYBLOB"; "BLOB"; "LONGBLOB"]);
   ("DECIMAL", wire ["NEWDECIMAL"]); ("UUID", VBool false);
   ("ENUM", VBool false); ("REAL", wire ["DOUBLE"]);
   ("DOUBLE", wire ["DOUBLE"]); ("GEOMETRY", wire ["GEOMETRY"]);
   ("JSON", wire ["JSON"])].

(** ** Letter-case variants

    [case_variant s t]: [s] is [t] with some of its letters replaced by
    their upper-case forms. *)
Definition upper_ascii (c : ascii) : ascii :=
  let n := nat_of_ascii c in
  if (97 <=? n)%nat && (n <=? 122)%nat then ascii_of_nat (n - 32) else c.

Inductive case_variant : string -> string -> Prop :=
| cv_empty : case_variant "" ""
| cv_keep (c : ascii) (s t : string) :
    case_variant s t -> case_variant (String c s) (String c t)
| cv_upper (c : ascii) (s t : string) :
    case_variant s t -> case_variant (String (upper_ascii c) s) (String c t).

(** What C7 says of one infinite value [v], printed as [shown] and sent by
    the server as [wire]: both [_stringify] print it as [shown], DATEONLY's
    static [parse] reads [wire] (and the lower-cased [shown]) back as [v],
    and both [_sanitize] turn every letter-case variant of [wire] into [v]
    when [options] is absent or its [raw] is [false]. *)
Definition infinite_date_law (E : Env) (v : float) (shown wire : string) : Prop :=
  (forall d options,
      K.DATEONLY_stringify (super E) d (VNum v) options = VStr shown
      /\ K.DATE_stringify (super E) d (VNum v) options = VStr shown)
  /\ K.DATEONLY_parse (VStr wire) = VNum v
  /\ K.DATEONLY_parse (VStr (toLowerCase shown)) = VNum v
  /\ (forall d s options,
      case_variant s wire ->
      options = VUndefined \/ get options "raw" = VBool false ->
      K.DATEONLY_sanitize (super E) d (VStr s) options = VNum v
      /\ K.DATE_sanitize (newDate E) (VStr s) options = VNum v).

(** ** The integer family and FLOAT (kingbase8) *)

Lemma seq_str_VStr (t s : string) : seq_str (VStr t) s = true <-> t = s.
Proof. simpl. apply String.eqb_eq. Qed.

Ltac run_monad :=
  unfold construct, call, K.number_new, K.removeUnsupportedIntegerOptions,
    K.FLOAT_new, K.TEXT_toSql, K.BLOB_toSql, K.HSTORE_new, K.HSTORE_parse,
    K.HSTORE_stringify, K.HSTORE_value, K.load_hstore, K.warn,
    Dm.GEOMETRY_new, assign_options_length, on_this, lift, lift_outcome,
    throw, read, modify, result, final, mbind, M_bind, mret, M_ret;
  cbn [fst snd this warned hstore host with_this with_warned with_hstore
       with_host].



(** And construction can throw because of these options: a string as the
    options has a length, which the cleanup cannot assign. *)
Example INTEGER_new_string_throws :
  let r := construct sample_env (K_number_new "INTEGER" (VStr "11"))
             sample_world in
  result r = Throw "TypeError: Cannot assign to read only property 'length'"
  /\ length (warned (final r)) = 1%nat
  /\ _length (this (final r)) = VUndefined
  /\ truthy (options_length (this (final r))) = true.
Proof. repeat split. Qed.

(** C5, as it holds.  The kingbase8 FLOAT constructor throws exactly when
    [_decimals] is truthy after the base constructor and [options.length]
    cannot be assigned; then of the fields only [_length] has been
    cleared.  When it returns, [_unsigned] and [_zerofill] are falsy,
    [undefined] when they were truthy and otherwise as the base
    constructor left them; when [_decimals] was truthy then [_decimals],
    [_length] and [options.length] are [undefined], and otherwise all
    three are kept. *)
Theorem FLOAT_new_options (E : Env) (length decimals : value) (w : World) :
  let d0 := base_new E "FLOAT" [length; decimals] in
  let r := construct E (K_FLOAT_new length decimals) w in
  let d := this (final r) in
  (result r = Return tt
   <-> truthy (_decimals d0) = false \/ options_locked d0 = None)
  /\ (result r = Return tt ->
      (truthy (_unsigned d) = false /\ truthy (_zerofill d) = false)
      /\ (_unsigned d = if truthy (_unsigned d0) then VUndefined else _unsigned d0)
      /\ (_zerofill d = if truthy (_zerofill d0) then VUndefined else _zerofill d0)
      /\ (truthy (_decimals d0) = true ->
          _decimals d = VUndefined /\ _length d = VUndefined
          /\ options_length d = VUndefined)
      /\ (truthy (_decimals d0) = false ->
          _decimals d = _decimals d0 /\ _length d = _length d0
          /\ options_length d = options_length d0))
  /\ (forall e, truthy (_decimals d0) = true -> options_locked d0 = Some e ->
      result r = Throw e /\ d = set_length VUndefined d0).
Proof.
  intros d0 r d. subst r d. run_monad. fold d0.
  destruct (truthy (_decimals d0)) eqn:Hd, (truthy (_unsigned d0)) eqn:Hu,
    (truthy (_zerofill d0)) eqn:Hz;
    cbn; destruct (options_locked d0) as [e0 |] eqn:Hlock;
    cbn; rewrite ?Hu, ?Hz; cbn; rewrite ?Hz; cbn;
    (split; [split; [intros H; try discriminate H; auto
                    | intros [H | H]; try discriminate H; auto] |]);
    (split; [intros H; try discriminate H; repeat split; auto; discriminate
            | intros e H1 H2; try discriminate H1; try discriminate H2;
              injection H2 as <-; split; reflexivity]).
Qed.

(** C5, as stated, fails: with the option [unsigned: false] a FLOAT keeps
    [_unsigned === false], which is not [undefined]. *)
Lemma FLOAT_new_keeps_false_unsigned :
  _unsigned (this (final (construct sample_env
     (K_FLOAT_new (VObject [("unsigned", VBool false)]) VUndefined)
     sample_world))) = VBool false
  /\ _unsigned (this (final (construct sample_env
     (K_FLOAT_new (VObject [("unsigned", VBool false)]) VUndefined)
     sample_world))) <> VUndefined.
Proof. split; [reflexivity | discriminate]. Qed.

(** With decimals and frozen options the constructor throws after its
    first warning, and [_unsigned] stays. *)
Example FLOAT_new_frozen_throws :
  let r := construct (sample_env_with (fun _ _ => frozen_float))
             (K_FLOAT_new (VNum 10) (VNum 2)) sample_world in
  result r = Throw "TypeError: Cannot assign to read only property 'length'"
  /\ warned (final r)
     = [(K.link, "KingbaseES does not support FLOAT with decimals. Plain `FLOAT` will be used instead.")]
  /\ _unsigned (this (final r)) = VBool true.
Proof. repeat split. Qed.

(** A FLOAT built with a length and no decimals keeps the length. *)
Example FLOAT_new_keeps_length :
  _length (this (final (construct sample_env
     (K_FLOAT_new (VNum 24) VUndefined) sample_world))) = VNum 24.
Proof. reflexivity. Qed.

(** ** GEOMETRY (dm) *)

Lemma includes_supported (v : value) :
  includes_str Dm.SUPPORTED_GEOMETRY_TYPES v = true
  <-> In v [VStr "POINT"; VStr "LINESTRING"; VStr "POLYGON"].
Proof.
  unfold includes_str, Dm.SUPPORTED_GEOMETRY_TYPES. cbn [existsb In].
  rewrite !orb_true_iff. split.
  - intros [H | [H | [H | H]]]; try discriminate;
      destruct v; try discriminate; apply seq_str_VStr in H; subst; auto.
  - intros [<- | [<- | [<- | []]]]; cbn; auto.
Qed.

(** C6: the dm GEOMETRY constructor throws exactly when the type left by
    the base constructor is not empty and is none of POINT, LINESTRING and
    POLYGON; when it returns, [sqlType] is the type if it is one of the
    three and the key if the type is empty, the type and the key are those
    of the base constructor, and [toSql] returns [sqlType]. *)
Theorem GEOMETRY_new_spec (E : Env) (type_ srid_ : value) (w : World) :
  let d0 := base_new E "GEOMETRY" [type_; srid_] in
  let r := construct E (Dm_GEOMETRY_new type_ srid_) w in
  let d := this (final r) in
  let supported := [VStr "POINT"; VStr "LINESTRING"; VStr "POLYGON"] in
  (result r
     = Throw "Supported geometry types are: POINT, LINESTRING, POLYGON"
   <-> isEmpty (type d0) = false /\ ~ In (type d0) supported)
  /\ (result r = Return tt
      <-> isEmpty (type d0) = true \/ In (type d0) supported)
  /\ (result r = Return tt ->
      type d = type d0 /\ key d = key d0
      /\ (In (type d0) supported -> sqlType d = type d0)
      /\ (isEmpty (type d0) = true -> sqlType d = key d0)
      /\ Dm.GEOMETRY_toSql d = sqlType d).
Proof.
  intros d0 r d supported. subst r d supported. run_monad. fold d0.
  pose proof (includes_supported (type d0)) as Hin.
  assert (Hne : In (type d0) [VStr "POINT"; VStr "LINESTRING"; VStr "POLYGON"]
                -> isEmpty (type d0) = false).
  { intros [<- | [<- | [<- | []]]]; reflexivity. }
  destruct (isEmpty (type d0)) eqn:He.
  - cbn. split; [split; [discriminate | intros [? _]; discriminate] |].
    split; [split; auto |].
    intros _. repeat split; auto.
    intros Hs. apply Hne in Hs. discriminate.
  - destruct (includes_str Dm.SUPPORTED_GEOMETRY_TYPES (type d0)) eqn:Hi; cbn.
    + assert (Hs : In (type d0) [VStr "POINT"; VStr "LINESTRING"; VStr "POLYGON"])
        by (apply Hin; reflexivity).
      split; [split; [discriminate | intros [_ Hn]; contradiction] |].
      split; [split; auto |].
      intros _. repeat split; auto. discriminate.
    + assert (Hs : ~ In (type d0) [VStr "POINT"; VStr "LINESTRING"; VStr "POLYGON"])
        by (intros Hs; apply Hin in Hs; discriminate).
      split; [split; auto |].
      split; [split; [discriminate | intros [? | ?]; [discriminate | contradiction]] |].
      discriminate.
Qed.

Example GEOMETRY_new_point :
  sqlType (this (final (construct sample_env
     (Dm_GEOMETRY_new (VStr "POINT") VUndefined) sample_world))) = VStr "POINT".
Proof. reflexivity. Qed.

Example GEOMETRY_new_untyped :
  sqlType (this (final (construct sample_env
     (Dm_GEOMETRY_new VUndefined VUndefined) sample_world))) = VStr "GEOMETRY".
Proof. reflexivity. Qed.

Example GEOMETRY_new_multipoint :
  result (construct sample_env
     (Dm_GEOMETRY_new (VStr "MULTIPOINT") VUndefined) sample_world)
  = Throw "Supported geometry types are: POINT, LINESTRING, POLYGON".
Proof. reflexivity. Qed.

(** ** Infinite dates (kingbase8) *)

Lemma lower_upper_ascii (c : ascii) :
  lower_ascii c = c -> lower_ascii (upper_ascii c) = c.
Proof.
  destruct c as [[] [] [] [] [] [] [] []]; vm_compute; congruence.
Qed.

Lemma case_variant_lower (s t : string) :
  case_variant s t -> toLowerCase t = t -> toLowerCase s = t.
Proof.
  induction 1 as [| c s t _ IH | c s t _ IH]; cbn [toLowerCase]; intros Ht.
  - reflexivity.
  - injection Ht as Hc Hr. rewrite Hc, (IH Hr). reflexivity.
  - injection Ht as Hc Hr. rewrite (lower_upper_ascii c Hc), (IH Hr). reflexivity.
Qed.

Lemma sanitize_enabled_absent_or_not_raw (options : value) :
  options = VUndefined \/ get options "raw" = VBool false ->
  K.sanitize_enabled options = true.
Proof.
  unfold K.sanitize_enabled. intros [-> | H]; [reflexivity |].
  rewrite H. cbn. destruct (truthy options); reflexivity.
Qed.

(** C7, as it holds: for [Infinity] and [-Infinity], the [_stringify] of
    the kingbase8 DATE and DATEONLY print ['Infinity'] and ['-Infinity'];
    the static [parse] of DATEONLY reads the wire strings ['infinity'] and
    ['-infinity'], and the lower-cased printed forms, back as the value; the
    [_sanitize] of both classes turn every letter-case variant of the wire
    strings into the value when [options] is absent or its [raw] is
    [false]. *)
Theorem infinite_dates (E : Env) :
  infinite_date_law E Infinity "Infinity" "infinity"
  /\ infinite_date_law E NegInfinity "-Infinity" "-infinity".
Proof.
  split; (split; [intros; split; reflexivity |]);
    (split; [reflexivity |]); (split; [reflexivity |]);
    intros d s options Hs Ho;
    apply case_variant_lower in Hs; try reflexivity;
    apply sanitize_enabled_absent_or_not_raw in Ho;
    unfold K.DATEONLY_sanitize, K.DATE_sanitize; rewrite Ho, Hs;
    destruct s; try discriminate Hs; split; reflexivity.
Qed.

Example sanitize_mixed_case :
  case_variant "InFiNiTy" "infinity"
  /\ K.DATE_sanitize (newDate sample_env) (VStr "InFiNiTy") VUndefined
     = VNum Infinity
  /\ K.DATEONLY_sanitize (super sample_env) blank (VStr "-INFINITY")
       (VObject [("raw", VBool false)]) = VNum NegInfinity.
Proof.
  split; [| split; reflexivity].
  apply (cv_upper "i"), cv_keep, (cv_upper "f"), cv_keep, (cv_upper "n"),
    cv_keep, (cv_upper "t"), cv_keep, cv_empty.
Qed.

(** C7, as stated, fails for DATE: its class body declares no static
    [parse], so [DATE.parse] is the host's; with a host class that has none
    the call on ['infinity'] throws instead of returning [Infinity]. *)
Lemma DATE_has_no_parse :
  K.DATE_parse None (VStr "infinity")
  = Throw "TypeError: DATE.parse is not a function"
  /\ K.DATE_parse None (VStr "infinity") <> Return (VNum Infinity).
Proof. split; [reflexivity | discriminate]. Qed.

(** ** Fractional seconds (dm) *)

Lemma TIME_fraction_step (n : nat) :
  join "" (repeat "S" (S (S n))) = String "S" (join "" (repeat "S" (S n))).
Proof. reflexivity. Qed.

Lemma DATE_fraction_step (n : nat) :
  join "," (repeat "S" (S (S n)))
  = String "S" (String "," (join "," (repeat "S" (S n)))).
Proof. reflexivity. Qed.

Lemma TIME_fraction_length (L : nat) :
  String.length (Dm.TIME_fraction L) = L.
Proof.
  unfold Dm.TIME_fraction, array_fill.
  destruct L as [| L]; [reflexivity |].
  induction L as [| L IH]; [reflexivity |].
  rewrite TIME_fraction_step. cbn [String.length]. now rewrite IH.
Qed.

Lemma DATE_fraction_length (L : nat) :
  String.length (Dm.DATE_fraction L) = (2 * L - 1)%nat.
Proof.
  unfold Dm.DATE_fraction, array_fill.
  destruct L as [| L]; [reflexivity |].
  induction L as [| L IH]; [reflexivity |].
  rewrite DATE_fraction_step. cbn [String.length]. rewrite IH. lia.
Qed.

Lemma DATE_fraction_commas (n : nat) :
  Dm.DATE_fraction (S n) = String "S" (String.concat "" (repeat ",S" n)).
Proof.
  unfold Dm.DATE_fraction, array_fill.
  induction n as [| n IH]; [reflexivity |].
  rewrite DATE_fraction_step, IH. destruct n; reflexivity.
Qed.

Lemma TIME_fraction_tokens (n : nat) :
  Dm.TIME_fraction n = String.concat "" (repeat "S" n).
Proof.
  unfold Dm.TIME_fraction, array_fill.
  destruct n as [| n]; [reflexivity |].
  induction n as [| n IH]; [reflexivity |].
  rewrite TIME_fraction_step, IH. reflexivity.
Qed.

(** The pattern DATE builds for the fractional seconds is that of TIME only
    for lengths 0 and 1: from 2 on it has [L - 1] commas in it. *)
Lemma DATE_fraction_differs (L : nat) :
  (2 <= L)%nat -> Dm.DATE_fraction L <> Dm.TIME_fraction L.
Proof.
  intros HL Heq. apply (f_equal String.length) in Heq.
  rewrite DATE_fraction_length, TIME_fraction_length in Heq. lia.
Qed.

Lemma DATE_fraction_differs_witness :
  (2 <= 3)%nat /\ Dm.DATE_fraction 3 <> Dm.TIME_fraction 3.
Proof. split; [lia | apply (DATE_fraction_differs 3); lia]. Defined.

(** C8 at the length 3: once the date is a moment ([_applyTimezone] has
    returned one, or the date was one), DATE formats it with the pattern
    ['YYYY-MM-DD HH:mm:ss.S,S,S'], where the claim (and TIME, for its own
    prefix) has three consecutive [S]; an error of [_applyTimezone] is
    passed on. *)
Theorem DATE_stringify_length_3 (E : Env) (d : DataType) (date options : value) :
  let this_ := set_length (VNum 3) d in
  Dm.DATE_stringify (isMoment E) (format E) (applyTimezone E) this_ date options
  = match Dm.localize (isMoment E) (applyTimezone E) this_ date options with
    | Return date' => Return (VStr (format E date' "YYYY-MM-DD HH:mm:ss.S,S,S"))
    | Throw e => Throw e
    end
  /\ Dm.TIME_stringify (isMoment E) (format E) (applyTimezone E) this_ date options
     = match Dm.localize (isMoment E) (applyTimezone E) this_ date options with
       | Return date' => Return (VStr (format E date' "HH:mm:ss.SSS"))
       | Throw e => Throw e
       end
  /\ (isMoment E date = true ->
      Dm.DATE_stringify (isMoment E) (format E) (applyTimezone E) this_ date options
      = Return (VStr (format E date "YYYY-MM-DD HH:mm:ss.S,S,S"))).
Proof.
  intros this_. unfold Dm.DATE_stringify, Dm.TIME_stringify, Dm.localize.
  split; [| split].
  - destruct (negb (isMoment E date)); [destruct (applyTimezone E _ _ _) |];
      reflexivity.
  - destruct (negb (isMoment E date)); [destruct (applyTimezone E _ _ _) |];
      reflexivity.
  - intros ->. reflexivity.
Qed.

(** On a date of the engine with a time zone in the options, and on a
    moment, the pattern with commas is what the sample host formats. *)
Example DATE_pattern_sample :
  Dm.DATE_stringify (isMoment sample_env) (format sample_env)
    (applyTimezone sample_env)
    (set_length (VNum 3) (sample_base "DATE" []))
    (VDate 0) (VObject [("timezone", VStr "+00:00")])
  = Return (VStr "YYYY-MM-DD HH:mm:ss.S,S,S")
  /\ Dm.DATE_stringify (isMoment sample_env) (format sample_env)
       (applyTimezone sample_env)
       (set_length (VNum 3) (sample_base "DATE" []))
       (moment (VDate 0)) VUndefined
     = Return (VStr "YYYY-MM-DD HH:mm:ss.S,S,S").
Proof. split; reflexivity. Qed.

Example DATE_stringify_length_1 (E : Env) (d : DataType) (date options : value) :
  isMoment E date = true ->
  Dm.DATE_stringify (isMoment E) (format E) (applyTimezone E)
    (set_length (VNum 1) d) date options
  = Return (VStr (format E date "YYYY-MM-DD HH:mm:ss.S")).
Proof. intros H. unfold Dm.DATE_stringify, Dm.localize. now rewrite H. Qed.

(** ** Effects of the operations *)

Example BOOLEAN_sanitize_samples :
  map K.BOOLEAN_sanitize
      [VStr "t"; VStr "false"; VStr "maybe"; VNum 1; VNum 0; VNum 2;
       VBuffer [1%Z]; VBuffer [1%Z; 0%Z]; VNull]
  = [VBool true; VBool false; VStr "maybe"; VBool true; VBool false; VNum 2;
     VBool true; VBuffer [1%Z; 0%Z]; VNull].
Proof. reflexivity. Qed.

Example GEOMETRY_toSql_sample :
  K.GEOMETRY_toSql (NumberToString sample_env) (ObjectToString sample_env)
    (mkDataType (VStr "GEOMETRY") VUndefined VUndefined VUndefined VUndefined
                VUndefined VUndefined (VStr "POINT") (VStr "4326") VUndefined
                None VUndefined VUndefined)
  = VStr "GEOMETRY(POINT,4326)".
Proof. reflexivity. Qed.

Lemma RANGE_table_frame (em : value -> string -> outcome value)
    (table : string) (st : value) (w : World) :
  final (K.RANGE_table em table st w) = w.
Proof.
  unfold K.RANGE_table, class_ref. run_monad.
  destruct (names (host w) !! "RANGE") as [l |]; [| reflexivity].
  destruct (classes (host w) !! l) as [c |]; [| reflexivity].
  destruct (K.member em _ table) as [tbl | e]; [| reflexivity].
  destruct st; reflexivity.
Qed.

Lemma RANGE_table_reads (em : value -> string -> outcome value)
    (table : string) (st : value) (w w' : World) :
  host w' = host w ->
  result (K.RANGE_table em table st w') = result (K.RANGE_table em table st w).
Proof.
  intros H. unfold K.RANGE_table, class_ref. run_monad. rewrite H.
  destruct (names (host w) !! "RANGE") as [l |]; [| reflexivity].
  rewrite H.
  destruct (classes (host w) !! l) as [c |]; [| reflexivity].
  destruct (K.member em _ table) as [tbl | e]; [| reflexivity].
  destruct st; reflexivity.
Qed.

Lemma host_reader_bind {A B : Type} (m : M A) (f : A -> M B) :
  host_reader m -> (forall a, host_reader (f a)) -> host_reader (m ≫= f).
Proof.
  intros [Hm1 Hm2] Hf. split.
  - intros w. specialize (Hm1 w). unfold mbind, M_bind, final in *.
    destruct (m w) as [[a | e] w1]; cbn in *; subst; [apply Hf | reflexivity].
  - intros w w' H. specialize (Hm2 w w' H).
    pose proof (Hm1 w) as H1. pose proof (Hm1 w') as H1'.
    unfold mbind, M_bind, final, result in *.
    destruct (m w) as [[a | e] w1], (m w') as [[a' | e'] w1'];
      cbn in *; subst; try congruence.
    injection Hm2 as ->. now apply Hf.
Qed.

Lemma host_reader_lift {A : Type} (o : outcome A) :
  host_reader (lift_outcome o).
Proof. split; reflexivity. Qed.

Lemma host_reader_ret {A : Type} (a : A) : host_reader (mret a : M A).
Proof. split; reflexivity. Qed.

Lemma host_reader_RANGE_table (em : value -> string -> outcome value)
    (table : string) (st : value) :
  host_reader (K.RANGE_table em table st).
Proof.
  split; [apply RANGE_table_frame | intros; now apply RANGE_table_reads].
Qed.

Lemma host_reader_RANGE_stringify nts ots rs ss esc em st vs o :
  host_reader (K.RANGE_stringify nts ots rs ss esc em st vs o).
Proof.
  unfold K.RANGE_stringify.
  apply host_reader_bind; [apply host_reader_lift |].
  intros v. destruct vs; try apply host_reader_ret;
    (apply host_reader_bind;
     [apply host_reader_RANGE_table | intros; apply host_reader_ret]).
Qed.

Lemma host_reader_RANGE_bindParam nts ots rs ss esc em bp st vs o :
  host_reader (K.RANGE_bindParam nts ots rs ss esc em bp st vs o).
Proof.
  unfold K.RANGE_bindParam.
  apply host_reader_bind; [apply host_reader_lift |].
  intros v. destruct vs; try apply host_reader_lift;
    (apply host_reader_bind; [apply host_reader_lift |]; intros;
     apply host_reader_bind;
     [apply host_reader_RANGE_table | intros; apply host_reader_ret]).
Qed.

Lemma host_reader_on_this (f : DataType -> M value) (w : World) :
  (forall d, host_reader (f d)) ->
  (forall w', this w' = this w -> host w' = host w ->
              result ((read this ≫= f) w') = result ((read this ≫= f) w))
  /\ final ((read this ≫= f) w) = w.
Proof.
  intros Hf. unfold mbind, M_bind, read. split.
  - intros w' Ht Hh. rewrite Ht. now apply Hf.
  - apply Hf.
Qed.

Ltac range_case lem w :=
  unfold call;
  match goal with
  | |- context [(read this ≫= ?f) _] =>
      let H1 := fresh "H" in
      let H2 := fresh "H" in
      destruct (host_reader_on_this f w) as [H1 H2];
      [intros d; apply lem |];
      rewrite !H2; cbn [reads_host resets_length uses_hstore andb];
      repeat split; auto
  end.

Lemma TEXT_toSql_run (w : World) :
  K.TEXT_toSql w
  = (Return (VStr "TEXT"),
     if truthy (_length (this w))
     then with_this (set_length VUndefined)
            (with_warned
               (warned w ++ [(K.link, "KingbaseES does not support TEXT with options. Plain `TEXT` will be used instead.")])
               w)
     else w).
Proof. run_monad. destruct (truthy (_length (this w))); reflexivity. Qed.

Lemma BLOB_toSql_run (w : World) :
  K.BLOB_toSql w
  = (Return (VStr "BYTEA"),
     if truthy (_length (this w))
     then with_this (set_length VUndefined)
            (with_warned
               (warned w ++ [(K.link, "KingbaseES does not support BLOB (BYTEA) with options. Plain `BYTEA` will be used instead.")])
               w)
     else w).
Proof. run_monad. destruct (truthy (_length (this w))); reflexivity. Qed.

Lemma load_hstore_run (w : World) :
  K.load_hstore w = (Return tt, with_hstore (loaded (hstore w)) w).
Proof. destruct w as [t l [[] |] B]; reflexivity. Qed.

Lemma HSTORE_value_run (hs : value -> string) (v : value) (w : World) :
  K.HSTORE_value hs v w = (Return (hs v), with_hstore (loaded (hstore w)) w).
Proof.
  unfold K.HSTORE_value, mbind, M_bind. now rewrite load_hstore_run.
Qed.

Lemma loaded_idem (h : option module_ref) : loaded (loaded h) = loaded h.
Proof. destruct h; reflexivity. Qed.

(** What a call does to each part of the world, and what its result
    depends on. *)
Lemma call_shape (E : Env) (m : method) (w : World) :
  let r := call E m w in
  (forall w', this w' = this w ->
              (reads_host m = true -> host w' = host w) ->
              result (call E m w') = result r)
  /\ result (call E m (final r)) = result r
  /\ final (call E m (final r)) = final r
  /\ this (final r)
     = (if resets_length m && truthy (_length (this w))
        then set_length VUndefined (this w) else this w)
  /\ host (final r) = host w
  /\ (resets_length m = false -> warned (final r) = warned w)
  /\ hstore (final r)
     = (if uses_hstore m then loaded (hstore w) else hstore w).
Proof.
  intros r; subst r.
  destruct m;
    try (run_monad; repeat split; try discriminate; auto;
         intros w' Hw' _; rewrite ?Hw'; reflexivity).
  - unfold call. rewrite !TEXT_toSql_run. cbn [result final fst snd].
    destruct (truthy (_length (this w))) eqn:Hl; cbn; rewrite ?Hl;
      (split; [intros w' Hw' _; now rewrite TEXT_toSql_run |]);
      repeat split; auto; easy.
  - unfold call. rewrite !BLOB_toSql_run. cbn [result final fst snd].
    destruct (truthy (_length (this w))) eqn:Hl; cbn; rewrite ?Hl;
      (split; [intros w' Hw' _; now rewrite BLOB_toSql_run |]);
      repeat split; auto; easy.
  - unfold call, K.HSTORE_stringify, mbind, M_bind.
    rewrite !HSTORE_value_run. cbn. rewrite loaded_idem.
    (split; [intros w' Hw' _; now rewrite HSTORE_value_run |]).
    repeat split; auto.
  - unfold call, K.HSTORE_parse, mbind, M_bind.
    rewrite !load_hstore_run. cbn. rewrite loaded_idem.
    (split; [intros w' Hw' _; now rewrite load_hstore_run |]).
    repeat split; auto.
  - unfold call, mbind, M_bind.
    rewrite !HSTORE_value_run. cbn. rewrite loaded_idem.
    (split; [intros w' Hw' _; now rewrite HSTORE_value_run |]).
    repeat split; auto.
  - unfold call, K.HSTORE_bindParam. cbn [uses_hstore].
    destruct (is_nullish options).
    + cbn. repeat split; auto.
    + unfold mbind, M_bind. rewrite !HSTORE_value_run. cbn.
      rewrite loaded_idem.
      (split; [intros w' Hw' _; now rewrite HSTORE_value_run |]).
      repeat split; auto.
  - range_case host_reader_RANGE_stringify w.
  - range_case host_reader_RANGE_bindParam w.
  - range_case host_reader_RANGE_table w.
  - range_case host_reader_RANGE_table w.
Qed.

(** C1, as it holds.  The result of every operation is determined by the
    receiver and the arguments, and for [toSql], [toCastType],
    [_stringify] and [_bindParam] of RANGE also by the host's classes
    (where they read the tables registered on RANGE), not by the rest of
    the state; a repeated call changes nothing more, and returns the same
    result when the operation calls no function of the caller.  No
    operation changes the receiver, except that the kingbase8 [TEXT.toSql]
    and [BLOB.toSql] reset a truthy [_length] of the receiver to
    [undefined]: they return ['TEXT'] and ['BYTEA'], and call [warn] once,
    with their text, exactly when [_length] was truthy.  No other
    operation calls [warn], the host's classes are never changed, and the
    variable [hstore] is loaded by the operations of HSTORE and left alone
    by all others. *)
Theorem call_effect (E : Env) (m : method) (w : World) :
  let r := call E m w in
  (forall w', this w' = this w ->
              (reads_host m = true -> host w' = host w) ->
              result (call E m w') = result r)
  /\ (calls_back m = false -> result (call E m (final r)) = result r)
  /\ final (call E m (final r)) = final r
  /\ this (final r)
     = (if resets_length m && truthy (_length (this w))
        then set_length VUndefined (this w) else this w)
  /\ host (final r) = host w
  /\ (resets_length m = false -> warned (final r) = warned w)
  /\ hstore (final r)
     = (if uses_hstore m then loaded (hstore w) else hstore w)
  /\ (result (call E K_TEXT_toSql w) = Return (VStr "TEXT")
      /\ warned (final (call E K_TEXT_toSql w))
         = if truthy (_length (this w))
           then (warned w ++ [(K.link, "KingbaseES does not support TEXT with options. Plain `TEXT` will be used instead.")])%list
           else warned w)
  /\ (result (call E K_BLOB_toSql w) = Return (VStr "BYTEA")
      /\ warned (final (call E K_BLOB_toSql w))
         = if truthy (_length (this w))
           then (warned w ++ [(K.link, "KingbaseES does not support BLOB (BYTEA) with options. Plain `BYTEA` will be used instead.")])%list
           else warned w).
Proof.
  intros r; subst r.
  destruct (call_shape E m w) as (H1 & H2 & H3 & H4 & H5 & H6 & H7).
  split; [assumption |]. split; [intros _; assumption |].
  do 5 (split; [assumption |]).
  unfold call. rewrite TEXT_toSql_run, BLOB_toSql_run.
  destruct (truthy (_length (this w))); repeat split.
Qed.

(** Samples of the operations that hand their argument on. *)
Example BLOB_hexify_sample :
  call sample_env (K_BLOB_hexify (VStr "cafe")) sample_world
  = (Return (VStr (String "E" (String "'" (String "\" (String "\" "xcafe'"))))),
     sample_world).
Proof. reflexivity. Qed.

Example GEOMETRY_stringify_sample :
  result (call sample_env
            (K_GEOMETRY_stringify (VStr "{}")
               (VObject [("escape", VFunction "escape")]))
            sample_world)
  = Return (VStr "ST_GeomFromGeoJSON(escape({}))")
  /\ result (call sample_env (K_GEOMETRY_stringify (VStr "{}") VUndefined)
               sample_world)
     = Throw "TypeError: options.escape is not a function"
  /\ result (call sample_env
               (K_GEOGRAPHY_bindParam (VStr "{}")
                  (VObject [("bindParam", VFunction "bindParam")]))
               sample_world)
     = Return (VStr "ST_GeomFromGeoJSON(bindParam({}))").
Proof. repeat split. Qed.

Example RANGE_parse_default_parser :
  result (call sample_env (K_RANGE_parse (VStr "[1,2)") VUndefined)
            sample_world)
  = Return (VArray [VStr "[1,2)"; VFunction "val => val"])
  /\ result (call sample_env (K_RANGE_parse (VStr "[1,2)") (VObject []))
               sample_world)
     = Return (VArray [VStr "[1,2)"; VUndefined])
  /\ result (call sample_env (K_RANGE_parse (VStr "[1,2)") VNull)
               sample_world)
     = Throw "TypeError: Cannot read properties of undefined".
Proof. repeat split. Qed.

Example DATE_validate_infinite :
  result (call sample_env (K_DATE_validate (VNum Infinity)) sample_world)
  = Return (VBool true).
Proof. reflexivity. Qed.

Example dm_DATE_parse_sample :
  result (call sample_env
            (Dm_DATE_parse (VObject [("string", VNull)]) VUndefined)
            sample_world)
  = Return VNull
  /\ result (call sample_env
               (Dm_DATE_parse (VObject [("string", VStr "2020-01-02 03:04:05")])
                  (VObject [("timezone", VStr "UTC")]))
               sample_world)
     = Return (VDate 0)
  /\ result (call sample_env
               (Dm_DATE_parse (VObject [("string", VStr "2020-01-02 03:04:05")])
                  VUndefined)
               sample_world)
     = Throw "TypeError: Cannot read properties of undefined".
Proof. repeat split. Qed.

Example dm_ENUM_toSql_sample :
  let enum := mkDataType (VStr "ENUM") VUndefined VUndefined VUndefined
                VUndefined VUndefined VUndefined VUndefined VUndefined
                VUndefined None VUndefined (VArray [VStr "a"; VStr "b"]) in
  result (call sample_env
            (Dm_ENUM_toSql (VObject [("escape", VFunction "escape")]))
            (mkWorld enum [] None empty_host))
  = Return (VStr "ENUM(escape(a), escape(b))").
Proof. reflexivity. Qed.

(** C1, as stated, fails: [toSql] on a TEXT whose [_length] is ['tiny']
    returns ['TEXT'] and leaves the receiver with [_length] undefined. *)
Lemma TEXT_toSql_writes_receiver :
  result (call sample_env K_TEXT_toSql tiny_text) = Return (VStr "TEXT")
  /\ _length (this tiny_text) = VStr "tiny"
  /\ _length (this (final (call sample_env K_TEXT_toSql tiny_text))) = VUndefined
  /\ this (final (call sample_env K_TEXT_toSql tiny_text)) <> this tiny_text.
Proof. repeat split; discriminate. Qed.

Example BLOB_toSql_warns :
  warned (final (call sample_env K_BLOB_toSql tiny_text))
  = [(K.link,
      "KingbaseES does not support BLOB (BYTEA) with options. Plain `BYTEA` will be used instead.")].
Proof. reflexivity. Qed.

(** The result of [toSql] of a RANGE depends on the host: it is the
    registered name on the sample host, and an error on a host without
    classes. *)
Example RANGE_toSql_reads_host :
  let range := mkDataType (VStr "RANGE") VUndefined VUndefined VUndefined
                 VUndefined VUndefined VUndefined VUndefined VUndefined
                 VUndefined None (VStr "INTEGER") VUndefined in
  result (call sample_env K_RANGE_toSql
            (mkWorld range [] None empty_host))
  = Throw "TypeError: BaseTypes.RANGE is undefined"
  /\ forall T w,
       K.exports host_world = (Return T, w) ->
       result (call sample_env K_RANGE_toSql
                 (mkWorld range [] None (host w)))
       = Return (VStr "int4range").
Proof.
  split; [reflexivity |].
  intros T w H. vm_compute in H. injection H as _ <-. reflexivity.
Qed.

Lemma module_frame_refl (w : World) : module_frame w w.
Proof. split; auto. Qed.

Lemma module_frame_trans (w1 w2 w3 : World) :
  module_frame w1 w2 -> module_frame w2 w3 -> module_frame w1 w3.
Proof.
  intros [Hh1 Hs1] [Hh2 Hs2]. split; [congruence |].
  destruct Hs1 as [H1 | H1], Hs2 as [H2 | H2]; rewrite H2, H1, ?loaded_idem;
    auto.
Qed.

Lemma keeps_bind {A B : Type} (m : M A) (f : A -> M B) :
  keeps_module_state m -> (forall a, keeps_module_state (f a)) ->
  keeps_module_state (m ≫= f).
Proof.
  intros Hm Hf w. specialize (Hm w). unfold mbind, M_bind, final in *.
  destruct (m w) as [[a | e] w1]; cbn in *; [| exact Hm].
  eapply module_frame_trans; [exact Hm | apply Hf].
Qed.

Lemma keeps_ret {A : Type} (a : A) : keeps_module_state (mret a : M A).
Proof. intros w. apply module_frame_refl. Qed.

Lemma keeps_lift {A : Type} (o : outcome A) :
  keeps_module_state (lift_outcome o).
Proof. intros w. apply module_frame_refl. Qed.

Lemma keeps_throw {A : Type} (e : string) :
  keeps_module_state (throw e : M A).
Proof. intros w. apply module_frame_refl. Qed.

Lemma keeps_class_ref (cls : string) : keeps_module_state (class_ref cls).
Proof.
  intros w. unfold class_ref, final.
  destruct (names (host w) !! cls); apply module_frame_refl.
Qed.

Lemma keeps_map_M {A B : Type} (f : A -> M B) (l : list A) :
  (forall a, keeps_module_state (f a)) -> keeps_module_state (K.map_M f l).
Proof.
  intros Hf. induction l as [| a l IH]; cbn [K.map_M]; [apply keeps_ret |].
  apply keeps_bind; [apply Hf |]. intros b.
  apply keeps_bind; [exact IH |]. intros bs. apply keeps_ret.
Qed.

Lemma keeps_ARRAY_item (esc : value -> value -> outcome value)
    (t : option K.Element) (options v : value) :
  (forall e, t = Some e -> element_keeps e) ->
  keeps_module_state (K.ARRAY_item esc t options v).
Proof.
  intros Ht. unfold K.ARRAY_item.
  destruct t as [e |]; [| apply keeps_lift].
  destruct (Ht e eq_refl) as [Hv Hs].
  destruct (truthy options && truthy (get options "bindParam")).
  - destruct (K.elem_value e) as [f |] eqn:Hf; [now apply (Hv f) |].
    destruct (K.elem_stringify e) as [g |] eqn:Hg; [| apply keeps_lift].
    apply keeps_bind; [now apply (Hs g) |]. intros x.
    destruct (K.elem_escape e) as [| | [] | | | | | | |];
      try apply keeps_lift; apply keeps_ret.
  - destruct (K.elem_stringify e) as [g |] eqn:Hg; [| apply keeps_lift].
    apply keeps_bind; [now apply (Hs g) |]. intros x.
    destruct (K.elem_escape e) as [| | [] | | | | | | |];
      try apply keeps_lift; apply keeps_ret.
Qed.

Lemma keeps_call_array (E : Env) (a : K.Array_) (m : array_method) :
  array_keeps a -> keeps_module_state (call_array E a m).
Proof.
  intros [Hsql Helem].
  assert (Hvalue : forall vs o,
             keeps_module_state (K.ARRAY_value (escape E) a vs o)).
  { intros vs o. apply keeps_map_M. intros v. now apply keeps_ARRAY_item. }
  destruct m as [vs o | vs o | vs o]; cbn [call_array].
  - apply keeps_bind; [apply Hvalue | intros; apply keeps_ret].
  - unfold K.ARRAY_stringify.
    apply keeps_bind; [apply Hvalue |]. intros xs.
    destruct (K.array_type a) as [e |]; [| apply keeps_ret].
    apply keeps_bind; [exact Hsql |]. intros castKey.
    apply keeps_bind; [apply keeps_class_ref |]. intros enum.
    destruct (bool_decide _); [| apply keeps_ret].
    apply keeps_bind; [apply keeps_lift | intros; apply keeps_ret].
  - unfold K.ARRAY_bindParam.
    destruct (is_nullish o); [apply keeps_throw |].
    apply keeps_bind; [apply Hvalue | intros; apply keeps_lift].
Qed.

(** C2, as it holds.  No operation and no constructor changes the host's
    classes.  The variable [hstore] of the KingbaseES file is the one
    mutable variable of the two modules: the constructor of HSTORE and its
    [_value], [_stringify], [_bindParam] (when it has options) and [parse]
    load the module into it when it is unset and leave it alone once it is
    set; no other operation writes it, and no result depends on it.  The
    functions put on the prototype of the host's ARRAY change the host's
    classes and the variable no more than the operations of the element
    type that they call. *)
Theorem module_state (E : Env) (w : World) :
  (forall m : method,
      host (final (call E m w)) = host w
      /\ hstore (final (call E m w))
         = (if uses_hstore m then loaded (hstore w) else hstore w)
      /\ forall h, result (call E m (with_hstore h w)) = result (call E m w))
  /\ (forall c : constructor,
      host (final (construct E c w)) = host w
      /\ hstore (final (construct E c w))
         = (if constructs_hstore c then loaded (hstore w) else hstore w)
      /\ forall h, result (construct E c (with_hstore h w))
                   = result (construct E c w))
  /\ (forall (a : K.Array_) (m : array_method),
      array_keeps a -> module_frame w (final (call_array E a m w))).
Proof.
  split; [| split].
  - intros m.
    destruct (call_shape E m w) as (H1 & _ & _ & _ & H5 & _ & H7).
    repeat split; [exact H5 | exact H7 |].
    intros h. apply H1; reflexivity.
  - intros c. destruct c; run_monad.
    + destruct (_ || _); cbn; [| repeat split].
      destruct (options_locked _); repeat split.
    + destruct (truthy (_decimals _)); cbn;
        [destruct (options_locked _); cbn |];
        repeat (match goal with |- context [if ?b then _ else _] =>
                  destruct b; cbn end); repeat split.
    + destruct w as [t l [h |] B]; repeat split;
        intros [h' |]; reflexivity.
    + destruct (isEmpty _); [repeat split |].
      destruct (includes_str _ _); repeat split.
  - intros a m Ha. now apply keeps_call_array.
Qed.

(** C2, as stated, fails: the first [HSTORE.parse] writes the variable
    [hstore], and every later one reads it. *)
Lemma HSTORE_parse_writes_hstore :
  hstore sample_world = None
  /\ hstore (final (call sample_env (K_HSTORE_parse (VStr "")) sample_world))
     = Some HstoreModule
  /\ hstore (final (call sample_env (K_HSTORE_parse (VStr "")) sample_world))
     <> hstore sample_world.
Proof. repeat split; discriminate. Qed.

(** [_bindParam] of HSTORE loads the parser through [_value], unless it
    has no options to look the function up in. *)
Example HSTORE_bindParam_loads :
  hstore (final (call sample_env
                   (K_HSTORE_bindParam (VObject [])
                      (VObject [("bindParam", VFunction "bindParam")]))
                   sample_world))
  = Some HstoreModule
  /\ hstore (final (call sample_env
                      (K_HSTORE_bindParam (VObject []) VUndefined)
                      sample_world))
     = None.
Proof. split; reflexivity. Qed.

(** An array of HSTORE keeps the module state as its element type does,
    and its [_bindParam] loads the parser; an array of ENUM is cast to the
    name of the enum. *)
Example hstore_array_keeps (E : Env) : array_keeps (hstore_array E).
Proof.
  assert (Hv : forall v, keeps_module_state (K.HSTORE_value (hstore_stringify E) v)).
  { intros v w. rewrite HSTORE_value_run. split; cbn; auto. }
  split; [apply keeps_ret |].
  intros e [= <-]. split; intros f [= <-] v options.
  - apply keeps_bind; [apply Hv | intros; apply keeps_ret].
  - unfold K.HSTORE_stringify.
    apply keeps_bind; [apply Hv | intros; apply keeps_ret].
Qed.

Example hstore_array_bindParam :
  hstore (final (call_array sample_env (hstore_array sample_env)
                   (K_ARRAY_bindParam [VObject []]
                      (VObject [("bindParam", VFunction "bindParam")]))
                   sample_world))
  = Some HstoreModule.
Proof. reflexivity. Qed.

Example enum_array_stringify :
  result (call_array sample_env enum_array
            (K_ARRAY_stringify [VStr "a"; VStr "b"]
               (VObject [("escape", VFunction "escape");
                         ("table", VStr "users"); ("field", VStr "role")]))
            host_world)
  = Return (VStr ("ARRAY[escape(a),escape(b)]::"
                  ++ K.tick ++ "enum_users_role" ++ K.tick ++ "[]")).
Proof. reflexivity. Qed.

(** ** Registration *)

Section Hoare.

Context {A B : Type}.

Lemma hoare_bind (P : World -> Prop) (m : M A) (Q : A -> World -> Prop)
    (f : A -> M B) (R : B -> World -> Prop) :
  hoare P m Q -> (forall a, hoare (Q a) (f a) R) -> hoare P (m ≫= f) R.
Proof.
  intros Hm Hf w HP. specialize (Hm w HP).
  unfold wp, mbind, M_bind in *.
  destruct (m w) as [[a | e] w']; [exact (Hf a w' Hm) | exact I].
Qed.

Lemma hoare_ret (P : World -> Prop) (a : A) (Q : A -> World -> Prop) :
  (forall w, P w -> Q a w) -> hoare P (mret a) Q.
Proof. intros H w HP. exact (H w HP). Qed.

Lemma hoare_pure (P : World -> Prop) (phi : Prop) (m : M A)
    (Q : A -> World -> Prop) :
  (phi -> hoare P m Q) -> hoare (fun w => P w /\ phi) m Q.
Proof. intros H w [HP Hphi]. exact (H Hphi w HP). Qed.

End Hoare.

Lemma types_frame_refl (k : string) (h : Host) : types_frame k h h.
Proof. intros l. destruct (classes h !! l); auto. Qed.

Lemma types_frame_update (k : string) (h0 h : Host) (l : positive)
    (c c' : ClassObj) :
  types_frame k h0 h ->
  classes h !! l = Some c ->
  (forall k', k' <> k -> types c' !! k' = types c !! k') ->
  types_frame k h0 (mkHost (names h) (<[l := c']> (classes h))).
Proof.
  intros Hf Hc Hstep l'. specialize (Hf l'). cbn [classes].
  destruct (decide (l = l')) as [<- | Hne].
  - rewrite lookup_insert_eq. rewrite Hc in Hf.
    destruct (classes h0 !! l); [| contradiction].
    intros k' Hk. rewrite (Hstep k' Hk). auto.
  - rewrite lookup_insert_ne by exact Hne. exact Hf.
Qed.

Lemma registered_update (k : string) (h : Host) (l : positive)
    (c c' : ClassObj) (cls : string) :
  registered k h cls ->
  classes h !! l = Some c ->
  (forall v, types c !! k = Some v -> exists v', types c' !! k = Some v') ->
  registered k (mkHost (names h) (<[l := c']> (classes h))) cls.
Proof.
  intros (l1 & c1 & v & Hn & Hc1 & Hv) Hc Hstep. unfold registered. cbn.
  destruct (decide (l = l1)) as [<- | Hne].
  - rewrite Hc in Hc1. injection Hc1 as <-. destruct (Hstep v Hv) as [v' Hv'].
    exists l, c', v'. rewrite lookup_insert_eq. auto.
  - exists l1, c1, v. rewrite lookup_insert_ne by exact Hne. auto.
Qed.

Section Invariant.

Variable k : string.
Variable h0 : Host.






End Invariant.







(** In the table the KingbaseES module returns, DATE has no static [parse]
    of its own, and DATEONLY has one. *)
Example DATE_declares_no_parse :
  map (fun e => (fst e, has_own_static "parse" (snd e)))
      (filter (fun e => existsb (String.eqb (fst e)) ["DATE"; "DATEONLY"; "FLOAT"; "INTEGER"])
              (returned [] (result (K.exports host_world))))
  = [("INTEGER", true); ("DATE", false); ("DATEONLY", true); ("FLOAT", false)].
Proof. vm_compute. reflexivity. Qed.

Example registered_types_sample :
  (names (host (final (Dm.exports host_world))) !! "BLOB"
     ≫= fun l => classes (host (final (Dm.exports host_world))) !! l
     ≫= fun c => types c !! "dm")
  = Some (VArray [VStr "TINYBLOB"; VStr "BLOB"; VStr "LONGBLOB"]).
Proof. vm_compute. reflexivity. Qed.

(** ** More on the KingbaseES operations *)

(** X1: [BOOLEAN._sanitize] (which is also [BOOLEAN.parse]) is idempotent:
    sanitizing a sanitized value changes nothing. *)
Theorem BOOLEAN_sanitize_idempotent (v : value) :
  K.BOOLEAN_sanitize (K.BOOLEAN_sanitize v) = K.BOOLEAN_sanitize v
  /\ K.BOOLEAN_parse (K.BOOLEAN_parse v) = K.BOOLEAN_parse v.
Proof.
  assert (Hnum : forall n,
             K.BOOLEAN_sanitize (K.BOOLEAN_sanitize (VNum n))
             = K.BOOLEAN_sanitize (VNum n)).
  { intros n. cbn. destruct (PrimFloat.eqb n 1) eqn:H1; [reflexivity |].
    destruct (PrimFloat.eqb n 0) eqn:H0; [reflexivity |].
    cbn. now rewrite H1, H0. }
  assert (H : K.BOOLEAN_sanitize (K.BOOLEAN_sanitize v) = K.BOOLEAN_sanitize v).
  { destruct v as [| | b | n | s | t | bytes | f | xs | ps];
      try reflexivity; try apply Hnum.
    - cbn. destruct (String.eqb s "true" || (String.eqb s "t" || false)) eqn:Ht;
        [reflexivity |].
      destruct (String.eqb s "false" || (String.eqb s "f" || false)) eqn:Hf;
        [reflexivity |].
      cbn. now rewrite Ht, Hf.
    - destruct bytes as [| b [| b' bytes]]; try reflexivity.
      specialize (Hnum (PrimFloat.of_uint63 (Uint63.of_Z b))).
      cbn in *. destruct (PrimFloat.eqb _ 1); [reflexivity |].
      destruct (PrimFloat.eqb _ 0); [reflexivity | exact Hnum]. }
  split; exact H.
Qed.

Lemma zero_is_not_one (n : float) :
  PrimFloat.eqb n 0 = true -> PrimFloat.eqb n 1 = false.
Proof.
  rewrite !FloatAxioms.eqb_spec.
  set (zero := Prim2SF 0). set (one := Prim2SF 1).
  vm_compute in zero, one. subst zero one.
  destruct (Prim2SF n) as [[] | [] | | [] m e]; intros H;
    try (vm_compute in H; discriminate H);
    try (unfold SFeqb, SFcompare in H; discriminate H);
    vm_compute; reflexivity.
Qed.

(** X2: [BOOLEAN._sanitize] turns the strings ['true'] and ['t'] and the
    number 1 into [true], the strings ['false'] and ['f'] and the number 0
    into [false], and treats a one-byte buffer as the number of its byte;
    every other value (any other string or number, a longer or empty
    buffer, [null], [undefined], a boolean, an object) comes back as it
    was. *)
Theorem BOOLEAN_sanitize_conservative (v : value) :
  (forall s,
      (s = "true" \/ s = "t" -> K.BOOLEAN_sanitize (VStr s) = VBool true)
      /\ (s = "false" \/ s = "f" -> K.BOOLEAN_sanitize (VStr s) = VBool false)
      /\ (s <> "true" -> s <> "t" -> s <> "false" -> s <> "f" ->
          K.BOOLEAN_sanitize (VStr s) = VStr s))
  /\ (forall n,
      (PrimFloat.eqb n 1 = true -> K.BOOLEAN_sanitize (VNum n) = VBool true)
      /\ (PrimFloat.eqb n 0 = true -> K.BOOLEAN_sanitize (VNum n) = VBool false)
      /\ (PrimFloat.eqb n 1 = false -> PrimFloat.eqb n 0 = false ->
          K.BOOLEAN_sanitize (VNum n) = VNum n))
  /\ (forall byte,
      K.BOOLEAN_sanitize (VBuffer [byte])
      = K.BOOLEAN_sanitize (VNum (PrimFloat.of_uint63 (Uint63.of_Z byte))))
  /\ ((forall s, v <> VStr s) -> (forall n, v <> VNum n) ->
      (forall byte, v <> VBuffer [byte]) ->
      K.BOOLEAN_sanitize v = v).
Proof.
  split; [| split; [| split]].
  - intros s. split; [| split].
    + intros [-> | ->]; reflexivity.
    + intros [-> | ->]; reflexivity.
    + intros H1 H2 H3 H4. cbn.
      apply String.eqb_neq in H1, H2, H3, H4. now rewrite H1, H2, H3, H4.
  - intros n. split; [| split].
    + intros H. cbn. now rewrite H.
    + intros H. cbn. rewrite H, (zero_is_not_one n H). reflexivity.
    + intros H1 H0. cbn. now rewrite H1, H0.
  - intros byte. reflexivity.
  - intros Hs Hn Hb.
    destruct v as [| | b | n | s | t | bytes | f | xs | ps]; try reflexivity.
    + now destruct (Hn n).
    + now destruct (Hs s).
    + destruct bytes as [| b [| b' bytes]]; try reflexivity.
      now destruct (Hb b).
Qed.

(** A one-byte buffer follows its byte. *)
Example BOOLEAN_sanitize_bit_fields :
  map K.BOOLEAN_sanitize [VBuffer [1%Z]; VBuffer [0%Z]; VBuffer [2%Z]]
  = [VBool true; VBool false; VNum 2].
Proof. reflexivity. Qed.

(** X3: the kingbase8 [DATE._sanitize] is idempotent for every value and
    every options: its results (dates, the two infinities, and the values
    it leaves alone) are left alone by a second call. *)
Theorem DATE_sanitize_idempotent (newDate : value -> float) (v options : value) :
  K.DATE_sanitize newDate (K.DATE_sanitize newDate v options) options
  = K.DATE_sanitize newDate v options.
Proof.
  unfold K.DATE_sanitize.
  destruct (K.sanitize_enabled options); cbn [andb]; [| reflexivity].
  destruct (negb (K.instanceof_Date v)) eqn:Hd; cbn [andb];
    [| rewrite Hd; reflexivity].
  destruct (truthy v) eqn:Ht; cbn [andb]; [| rewrite Hd, Ht; reflexivity].
  destruct (negb (seq_num v Infinity)) eqn:Hi; cbn [andb];
    [| rewrite Hd, Ht, Hi; reflexivity].
  destruct (negb (seq_num v NegInfinity)) eqn:Hn; cbn [andb];
    [| rewrite Hd, Ht, Hi, Hn; reflexivity].
  destruct v as [| | b | n | s | t | bytes | f | xs | ps]; try reflexivity.
  destruct (String.eqb (toLowerCase s) "infinity"); [reflexivity |].
  destruct (String.eqb (toLowerCase s) "-infinity"); reflexivity.
Qed.

(** X4: with a truthy [options.raw] neither [_sanitize] changes any value,
    and the numbers [Infinity] and [-Infinity] are returned unchanged
    whatever the options. *)
Theorem sanitize_raw_passthrough (E : Env) (d : DataType) (v options : value) :
  truthy options = true ->
  truthy (get options "raw") = true ->
  (K.DATEONLY_sanitize (super E) d v options = v
   /\ K.DATE_sanitize (newDate E) v options = v)
  /\ (forall o,
        K.DATEONLY_sanitize (super E) d (VNum Infinity) o = VNum Infinity
        /\ K.DATEONLY_sanitize (super E) d (VNum NegInfinity) o = VNum NegInfinity
        /\ K.DATE_sanitize (newDate E) (VNum Infinity) o = VNum Infinity
        /\ K.DATE_sanitize (newDate E) (VNum NegInfinity) o = VNum NegInfinity).
Proof.
  intros Ho Hr. split.
  - unfold K.DATEONLY_sanitize, K.DATE_sanitize, K.sanitize_enabled.
    rewrite Ho, Hr. split; reflexivity.
  - intros o. unfold K.DATEONLY_sanitize, K.DATE_sanitize.
    destruct (K.sanitize_enabled o); repeat split; reflexivity.
Qed.

Lemma sanitize_raw_passthrough_witness :
  K.DATEONLY_sanitize (super sample_env) blank (VStr "infinity")
    (VObject [("raw", VBool true)]) = VStr "infinity"
  /\ K.DATE_sanitize (newDate sample_env) (VStr "infinity")
       (VObject [("raw", VBool true)]) = VStr "infinity".
Proof.
  apply (sanitize_raw_passthrough sample_env blank (VStr "infinity")
           (VObject [("raw", VBool true)])); reflexivity.
Defined.

(** Without a type, the kingbase8 GEOMETRY and GEOGRAPHY [toSql] drop
    the srid: the result is the key, resp. ['GEOGRAPHY'], whatever the
    srid. *)
Theorem toSql_srid_needs_type (E : Env) (d : DataType) (s : value) :
  truthy (type d) = false ->
  K.GEOMETRY_toSql (NumberToString E) (ObjectToString E) (set_srid s d) = key d
  /\ K.GEOGRAPHY_toSql (NumberToString E) (ObjectToString E) (set_srid s d)
     = VStr "GEOGRAPHY".
Proof.
  intros Ht. unfold K.GEOMETRY_toSql, K.GEOGRAPHY_toSql. cbn [type set_srid key].
  rewrite Ht. split; reflexivity.
Qed.

Lemma toSql_srid_needs_type_witness :
  K.GEOMETRY_toSql (NumberToString sample_env) (ObjectToString sample_env)
    (set_srid (VNum 4326) blank) = key blank
  /\ K.GEOGRAPHY_toSql (NumberToString sample_env) (ObjectToString sample_env)
       (set_srid (VNum 4326) blank) = VStr "GEOGRAPHY".
Proof.
  apply (toSql_srid_needs_type sample_env blank (VNum 4326)). reflexivity.
Defined.

(** ** More on the Dameng operations *)

Lemma append_cons (a : ascii) (s t : string) :
  String a s ++ t = String a (s ++ t).
Proof. reflexivity. Qed.

Lemma append_assoc (s t u : string) : (s ++ t) ++ u = s ++ t ++ u.
Proof.
  induction s as [| a s IH]; [reflexivity |].
  rewrite !append_cons. now rewrite IH.
Qed.

(** X5: the dm [GEOMETRY.parse] gives [null] for a missing or empty buffer
    without calling wkx, and otherwise hands wkx the buffer without its
    first four bytes, so that these four bytes never matter; a buffer of
    one to four bytes reaches wkx empty. *)
Theorem GEOMETRY_parse_header (wkx_parse : list Z -> outcome value)
    (header body : list Z) :
  length header = 4%nat ->
  Dm.GEOMETRY_parse wkx_parse (Some (header ++ body)%list) = wkx_parse body
  /\ Dm.GEOMETRY_parse wkx_parse (Some []) = Return VNull
  /\ Dm.GEOMETRY_parse wkx_parse None = Return VNull
  /\ (forall short,
        (1 <= length short <= 4)%nat ->
        Dm.GEOMETRY_parse wkx_parse (Some short) = wkx_parse []).
Proof.
  intros Hh.
  destruct header as [| a [| b [| c [| e [| f header]]]]]; try discriminate.
  repeat split; try reflexivity.
  intros short [Hlo Hhi].
  destruct short as [| a' [| b' [| c' [| e' [| f' short]]]]]; cbn in *;
    try reflexivity; lia.
Qed.

Lemma GEOMETRY_parse_header_witness :
  Dm.GEOMETRY_parse (fun bytes => Return (VBuffer bytes))
    (Some ([0%Z; 0%Z; 0%Z; 0%Z] ++ [1%Z; 2%Z])%list)
  = Return (VBuffer [1%Z; 2%Z]).
Proof.
  apply (GEOMETRY_parse_header (fun bytes => Return (VBuffer bytes))
           [0%Z; 0%Z; 0%Z; 0%Z] [1%Z; 2%Z]).
  reflexivity.
Defined.

(** X6: the dm [DECIMAL.toSql] is the host's definition when neither
    [_unsigned] nor [_zerofill] is truthy, and otherwise that definition as
    a string followed by [' UNSIGNED'] and then [' ZEROFILL'], each if its
    option is truthy. *)
Theorem DECIMAL_toSql_suffixes (E : Env) (d : DataType) :
  let base := super E "DECIMAL" "toSql" d [] in
  Dm.DECIMAL_toSql (NumberToString E) (ObjectToString E) (super E) d
  = if truthy (_unsigned d) || truthy (_zerofill d)
    then VStr (ToString (NumberToString E) (ObjectToString E) base
               ++ (if truthy (_unsigned d) then " UNSIGNED" else "")
               ++ (if truthy (_zerofill d) then " ZEROFILL" else ""))
    else base.
Proof.
  intros base. unfold Dm.DECIMAL_toSql. fold base.
  destruct (truthy (_unsigned d)), (truthy (_zerofill d)); cbn [orb ToString];
    try reflexivity.
  now rewrite append_assoc.
Qed.

(** X7: whenever [_length] is truthy and [new Array(_length)] has [L]
    slots, the dm [TIME._stringify] formats the date, once it is a moment,
    with ['HH:mm:ss.'] followed by exactly [L] tokens [S]; when the date is
    no moment and [_applyTimezone] throws, that error is the outcome. *)
Theorem TIME_stringify_tokens (E : Env) (d : DataType) (date options : value)
    (L : nat) :
  truthy (_length d) = true ->
  new_Array (_length d) = Return L ->
  Dm.TIME_stringify (isMoment E) (format E) (applyTimezone E) d date options
  = match Dm.localize (isMoment E) (applyTimezone E) d date options with
    | Return date' =>
        Return (VStr (format E date'
                        ("HH:mm:ss." ++ String.concat "" (repeat "S" L))))
    | Throw e => Throw e
    end.
Proof.
  intros Ht HL. unfold Dm.TIME_stringify.
  destruct (Dm.localize _ _ _ _ _); [| reflexivity].
  rewrite Ht, HL. now rewrite TIME_fraction_tokens.
Qed.

Lemma TIME_stringify_tokens_witness :
  Dm.TIME_stringify (isMoment sample_env) (format sample_env)
    (applyTimezone sample_env) (set_length (VNum 6) (sample_base "TIME" []))
    (moment (VDate 0)) VUndefined
  = Return (VStr "HH:mm:ss.SSSSSS").
Proof.
  apply (TIME_stringify_tokens sample_env
           (set_length (VNum 6) (sample_base "TIME" []))
           (moment (VDate 0)) VUndefined 6); reflexivity.
Defined.

(** A date that is no moment goes through [_applyTimezone], which the
    host's TIME does not have. *)
Example TIME_stringify_plain_date :
  Dm.TIME_stringify (isMoment sample_env) (format sample_env)
    (applyTimezone sample_env) (set_length (VNum 6) (sample_base "TIME" []))
    (VDate 0) (VObject [("timezone", VStr "+00:00")])
  = Throw "TypeError: this._applyTimezone is not a function".
Proof. reflexivity. Qed.

(** X8: a truthy [_length] that is not a number (the string ['6'], say)
    gives one fractional digit in the dm [DATE._stringify] and
    [TIME._stringify], because [new Array] of it has one element, while
    [toSql] prints it as the precision.  This is the outcome once the date
    is a moment; an error of [_applyTimezone] comes first. *)
Theorem stringify_length_not_a_number (E : Env) (d : DataType)
    (date options : value) :
  truthy (_length d) = true ->
  (forall n, _length d <> VNum n) ->
  Dm.TIME_stringify (isMoment E) (format E) (applyTimezone E) d date options
  = match Dm.localize (isMoment E) (applyTimezone E) d date options with
    | Return date' => Return (VStr (format E date' "HH:mm:ss.S"))
    | Throw e => Throw e
    end
  /\ Dm.DATE_stringify (isMoment E) (format E) (applyTimezone E) d date options
     = match Dm.localize (isMoment E) (applyTimezone E) d date options with
       | Return date' => Return (VStr (format E date' "YYYY-MM-DD HH:mm:ss.S"))
       | Throw e => Throw e
       end
  /\ Dm.TIME_toSql (NumberToString E) (ObjectToString E) d
     = VStr ("TIME(" ++ ToString (NumberToString E) (ObjectToString E) (_length d)
             ++ ")")
  /\ Dm.DATE_toSql (NumberToString E) (ObjectToString E) d
     = VStr ("TIMESTAMP(" ++ ToString (NumberToString E) (ObjectToString E) (_length d)
             ++ ")").
Proof.
  intros Ht Hn.
  unfold Dm.TIME_stringify, Dm.DATE_stringify, Dm.TIME_toSql, Dm.DATE_toSql.
  rewrite Ht.
  destruct (Dm.localize _ _ _ _ _) as [date' | e];
    destruct (_length d) as [| | b | n | s | t | bytes | f | xs | ps];
    try (repeat split; reflexivity);
    now destruct (Hn n).
Qed.

Lemma stringify_length_not_a_number_witness :
  Dm.TIME_stringify (isMoment sample_env) (format sample_env)
    (applyTimezone sample_env) (set_length (VStr "6") (sample_base "TIME" []))
    (moment (VDate 0)) VUndefined
  = Return (VStr "HH:mm:ss.S")
  /\ Dm.DATE_stringify (isMoment sample_env) (format sample_env)
       (applyTimezone sample_env) (set_length (VStr "6") (sample_base "DATE" []))
       (VDate 0) (VObject [("timezone", VStr "+00:00")])
     = Return (VStr "YYYY-MM-DD HH:mm:ss.S")
  /\ Dm.TIME_toSql (NumberToString sample_env) (ObjectToString sample_env)
       (set_length (VStr "6") (sample_base "TIME" [])) = VStr "TIME(6)".
Proof.
  destruct (stringify_length_not_a_number sample_env
              (set_length (VStr "6") (sample_base "TIME" []))
              (moment (VDate 0)) VUndefined)
    as (H1 & _ & H3 & _); [reflexivity | discriminate |].
  destruct (stringify_length_not_a_number sample_env
              (set_length (VStr "6") (sample_base "DATE" []))
              (VDate 0) (VObject [("timezone", VStr "+00:00")]))
    as (_ & H2 & _ & _); [reflexivity | discriminate |].
  split; [exact H1 | split; [exact H2 | exact H3]].
Defined.

(** X9: a truthy numeric [_length] that is not an integer, or is negative,
    infinite or not below 2^32, makes the dm [DATE._stringify] and
    [TIME._stringify] throw the RangeError of [new Array], unless
    [_applyTimezone], which runs first on a date that is no moment, has
    thrown already; in no case do they return. *)
Theorem stringify_length_out_of_range (E : Env) (d : DataType)
    (date options : value) (n : float) :
  _length d = VNum n ->
  truthy (VNum n) = true ->
  float_to_Z n = None \/ (exists z, float_to_Z n = Some z /\ (2 ^ 32 <= z)%Z) ->
  Dm.DATE_stringify (isMoment E) (format E) (applyTimezone E) d date options
  = match Dm.localize (isMoment E) (applyTimezone E) d date options with
    | Return _ => Throw "RangeError: Invalid array length"
    | Throw e => Throw e
    end
  /\ Dm.TIME_stringify (isMoment E) (format E) (applyTimezone E) d date options
     = match Dm.localize (isMoment E) (applyTimezone E) d date options with
       | Return _ => Throw "RangeError: Invalid array length"
       | Throw e => Throw e
       end.
Proof.
  intros Hl Ht Hz. unfold Dm.DATE_stringify, Dm.TIME_stringify.
  destruct (Dm.localize _ _ _ _ _) as [date' | e]; [| split; reflexivity].
  rewrite Hl, Ht. unfold new_Array.
  destruct Hz as [-> | (z & -> & Hz)]; [split; reflexivity |].
  destruct (Z.ltb_spec z (2 ^ 32)); [lia | split; reflexivity].
Qed.

Lemma stringify_length_out_of_range_witness :
  Dm.DATE_stringify (isMoment sample_env) (format sample_env)
    (applyTimezone sample_env) (set_length (VNum 2.5) (sample_base "DATE" []))
    (VDate 0) (VObject [("timezone", VStr "+00:00")])
  = Throw "RangeError: Invalid array length"
  /\ Dm.TIME_stringify (isMoment sample_env) (format sample_env)
       (applyTimezone sample_env) (set_length (VNum (-1)) (sample_base "TIME" []))
       (moment (VDate 0)) VUndefined
     = Throw "RangeError: Invalid array length".
Proof.
  split.
  - apply (stringify_length_out_of_range sample_env
             (set_length (VNum 2.5) (sample_base "DATE" []))
             (VDate 0) (VObject [("timezone", VStr "+00:00")]) 2.5);
      [reflexivity | reflexivity | left; reflexivity].
  - apply (stringify_length_out_of_range sample_env
             (set_length (VNum (-1)) (sample_base "TIME" []))
             (moment (VDate 0)) VUndefined (-1));
      [reflexivity | reflexivity | left; reflexivity].
Defined.

(** ** More on the kingbase8 constructors *)

(** X10: [removeUnsupportedIntegerOptions] warns at most once and touches
    no field other than [_length], [options.length], [_unsigned] and
    [_zerofill].  It throws exactly when one of the four is truthy and
    [options.length] cannot be assigned; it has then warned and cleared
    [_length] only.  When it returns it is idempotent: on the instance it
    leaves, a second run neither warns nor changes anything. *)
Theorem removeUnsupportedIntegerOptions_idempotent
    (NumberToString : float -> string) (ObjectToString : value -> string)
    (w : World) :
  let r := K.removeUnsupportedIntegerOptions NumberToString ObjectToString w in
  let w1 := final r in
  let unsupported :=
    truthy (_length (this w)) || truthy (options_length (this w))
    || truthy (_unsigned (this w)) || truthy (_zerofill (this w)) in
  (result r = Return tt
   <-> unsupported = false \/ options_locked (this w) = None)
  /\ (result r = Return tt ->
      K.removeUnsupportedIntegerOptions NumberToString ObjectToString w1
      = (Return tt, w1))
  /\ (forall e, unsupported = true -> options_locked (this w) = Some e ->
      result r = Throw e
      /\ this w1 = set_length VUndefined (this w)
      /\ exists text, warned w1 = (warned w ++ [(K.link, text)])%list)
  /\ (key (this w1) = key (this w) /\ _decimals (this w1) = _decimals (this w)
      /\ _binary (this w1) = _binary (this w) /\ type (this w1) = type (this w)
      /\ srid (this w1) = srid (this w) /\ sqlType (this w1) = sqlType (this w)
      /\ options_locked (this w1) = options_locked (this w)
      /\ _subtype (this w1) = _subtype (this w)
      /\ values (this w1) = values (this w))
  /\ hstore w1 = hstore w
  /\ host w1 = host w
  /\ (warned w1 = warned w
      \/ exists text, warned w1 = (warned w ++ [(K.link, text)])%list).
Proof.
  intros r w1 unsupported. subst r w1 unsupported. run_monad.
  destruct (truthy (_length (this w)) || truthy (options_length (this w))
            || truthy (_unsigned (this w)) || truthy (_zerofill (this w)))
    eqn:Hany; cbn.
  - destruct (options_locked (this w)) as [e0 |] eqn:Hlock; cbn.
    + split; [split; [discriminate | intros [H | H]; discriminate] |].
      split; [discriminate |].
      split; [intros e _ [= <-]; repeat split; eauto |].
      repeat split; auto. right. eauto.
    + split; [split; auto |].
      split; [reflexivity |].
      split; [intros e _ H; discriminate H |].
      repeat split; auto. right. eauto.
  - rewrite Hany.
    split; [split; auto |].
    split; [reflexivity |].
    split; [intros e H; discriminate H |].
    repeat split; auto.
Qed.

(** On a string as the options, every run warns and throws. *)
Example removeUnsupportedIntegerOptions_string_options :
  let r := construct sample_env (K_number_new "INTEGER" (VStr "11"))
             sample_world in
  let r' := K.removeUnsupportedIntegerOptions (NumberToString sample_env)
              (ObjectToString sample_env) (final r) in
  result r' = result r /\ length (warned (final r')) = 2%nat.
Proof. split; reflexivity. Qed.

(** X11: the kingbase8 FLOAT constructor warns once for each of
    [_decimals], [_unsigned] and [_zerofill] that the base constructor left
    truthy, in this order, and not otherwise, as long as it runs: when
    [_decimals] is truthy and [options.length] cannot be assigned, it
    throws after the first warning and the other two are not given. *)
Theorem FLOAT_new_warnings (E : Env) (length decimals : value) (w : World) :
  let d0 := base_new E "FLOAT" [length; decimals] in
  let r := construct E (K_FLOAT_new length decimals) w in
  let stops := truthy (_decimals d0)
               && match options_locked d0 with Some _ => true | None => false end in
  warned (final r)
  = (warned w
     ++ (if truthy (_decimals d0)
         then [(K.link, "KingbaseES does not support FLOAT with decimals. Plain `FLOAT` will be used instead.")]
         else [])
     ++ (if stops then []
         else (if truthy (_unsigned d0)
               then [(K.link, "KingbaseES does not support FLOAT unsigned. `UNSIGNED` was removed.")]
               else [])
              ++ (if truthy (_zerofill d0)
                  then [(K.link, "KingbaseES does not support FLOAT zerofill. `ZEROFILL` was removed.")]
                  else [])))%list
  /\ (stops = true <-> exists e, result r = Throw e)
  /\ (stops = false <-> result r = Return tt).
Proof.
  intros d0 r stops. subst r stops. run_monad. fold d0.
  destruct (truthy (_decimals d0)) eqn:Hd, (truthy (_unsigned d0)) eqn:Hu,
    (truthy (_zerofill d0)) eqn:Hz;
    cbn; destruct (options_locked d0) as [e0 |] eqn:Hlock;
    cbn; rewrite ?Hu, ?Hz; cbn; rewrite ?Hz; cbn;
    rewrite <- ?app_assoc, ?app_nil_r;
    (split; [reflexivity |]);
    (split; split; try discriminate; try reflexivity; eauto;
     intros [e He]; discriminate He).
Qed.

(** ** RANGE (kingbase8) *)

Section Range.

Variable range_stringify : list value -> list value -> string.
Variable subtype_stringify : option (value -> value -> value).
Variable escape : value -> value -> outcome value.

Local Abbreviation bounds := (K.RANGE_bounds subtype_stringify escape).

Lemma RANGE_bounds_unbounded (vs : list value) (options : value) :
  Forall (fun v => K.is_unbounded (fst (K.unwrap_bound v)) = true) vs ->
  forall index incl,
    exists incl',
      bounds vs index incl options
      = Return (map (fun v => fst (K.unwrap_bound v)) vs, incl').
Proof.
  induction 1 as [| v vs Hv _ IH]; intros index incl; cbn.
  - eauto.
  - destruct (K.unwrap_bound v) as [x inclusive] eqn:Hx. cbn in Hv.
    unfold K.stringify_bound. rewrite Hv.
    edestruct IH as [incl' ->]. eauto.
Qed.

Lemma RANGE_bounds_length (vs : list value) (options : value) :
  forall index incl ss incl',
    bounds vs index incl options = Return (ss, incl') ->
    length ss = length vs
    /\ (Forall (fun v => snd (K.unwrap_bound v) = None) vs -> incl' = incl).
Proof.
  induction vs as [| v vs IH]; intros index incl ss incl'; cbn.
  - intros [= <- <-]. auto.
  - destruct (K.unwrap_bound v) as [x inclusive] eqn:Hx.
    destruct (K.stringify_bound subtype_stringify escape x options)
      as [s | e]; [| discriminate].
    destruct (bounds vs (S index) _ options) as [[ss0 incl0] | e] eqn:Hrest;
      [| discriminate].
    intros [= <- <-]. apply IH in Hrest as [Hlen Hincl]. split.
    + cbn. now rewrite Hlen.
    + intros Hall. inversion Hall as [| ? ? Hv Hvs]; subst.
      rewrite Hx in Hv. cbn in Hv. subst inclusive. auto.
Qed.

End Range.

(** X12: unbounded bounds ([null], [-Infinity], [Infinity], bare or as the
    [value] of an object) go through [RANGE._value] unchanged: when every
    bound is unbounded, neither the subtype's [stringify] nor
    [options.escape] is used, and ['./range'] gets the bounds themselves. *)
Theorem RANGE_value_unbounded
    (range_stringify : list value -> list value -> string)
    (subtype_stringify : option (value -> value -> value))
    (escape : value -> value -> outcome value)
    (vs : list value) (options : value) :
  Forall (fun v => K.is_unbounded (fst (K.unwrap_bound v)) = true) vs ->
  exists incl,
    K.RANGE_value range_stringify subtype_stringify escape (VArray vs) options
    = Return (VStr (range_stringify
                      (map (fun v => fst (K.unwrap_bound v)) vs) incl)).
Proof.
  intros Hall. unfold K.RANGE_value.
  destruct (RANGE_bounds_unbounded subtype_stringify escape vs options Hall
              0%nat [VBool true; VBool false]) as [incl ->].
  eauto.
Qed.

Lemma RANGE_value_unbounded_witness :
  exists incl,
    K.RANGE_value (fun bs _ => ToString (fun _ => "Infinity") (fun _ => "")
                                (nth 1 bs VUndefined))
      None (fun _ _ => Throw "no escape")
      (VArray [VNull; VObject [("value", VNum Infinity); ("inclusive", VBool true)]])
      VUndefined
    = Return (VStr ((fun _ : list value => "Infinity") incl)).
Proof.
  apply (RANGE_value_unbounded
           (fun bs _ => ToString (fun _ => "Infinity") (fun _ => "")
                          (nth 1 bs VUndefined))
           None (fun _ _ => Throw "no escape")
           [VNull; VObject [("value", VNum Infinity); ("inclusive", VBool true)]]
           VUndefined).
  repeat constructor.
Defined.

(** X13: when [RANGE._value] gets through an array of bounds, it hands
    ['./range'] as many stringified bounds as it was given, and, if no
    bound is an object with both [value] and [inclusive], the inclusivity
    [[true, false]]. *)
Theorem RANGE_bounds_default_inclusive
    (subtype_stringify : option (value -> value -> value))
    (escape : value -> value -> outcome value)
    (vs ss incl : list value) (options : value) :
  K.RANGE_bounds subtype_stringify escape vs 0 [VBool true; VBool false] options
  = Return (ss, incl) ->
  length ss = length vs
  /\ (Forall (fun v => snd (K.unwrap_bound v) = None) vs ->
      incl = [VBool true; VBool false]).
Proof. apply RANGE_bounds_length. Qed.

Lemma RANGE_bounds_default_inclusive_witness :
  length [VStr "[1]"; VStr "[10]"] = length [VNum 1; VNum 10]
  /\ (Forall (fun v => snd (K.unwrap_bound v) = None) [VNum 1; VNum 10] ->
      [VBool true; VBool false] = [VBool true; VBool false]).
Proof.
  apply (RANGE_bounds_default_inclusive
           (Some (fun v _ =>
                    VStr ("[" ++ ToString (fun n => if PrimFloat.eqb n 1 then "1" else "10")
                                          (fun _ => "") v ++ "]")))
           (fun _ v => Return v) [VNum 1; VNum 10]
           [VStr "[1]"; VStr "[10]"] [VBool true; VBool false] VUndefined).
  reflexivity.
Defined.

Example RANGE_bounds_inclusive_sample :
  K.RANGE_bounds None (fun _ v => Return v)
    [VObject [("value", VStr "a"); ("inclusive", VBool false)];
     VObject [("value", VStr "b"); ("inclusive", VBool true)]]
    0 [VBool true; VBool false] VUndefined
  = Return ([VStr "a"; VStr "b"], [VBool false; VBool true]).
Proof. reflexivity. Qed.

(** ** Registration, whether it returns or throws *)

Lemma always_bind {A B : Type} (I : World -> Prop) (m : M A) (f : A -> M B) :
  always I m -> (forall a, always I (f a)) -> always I (m ≫= f).
Proof.
  intros Hm Hf w HI. specialize (Hm w HI). unfold mbind, M_bind.
  destruct (m w) as [[a | e] w']; cbn in *; [exact (Hf a w' Hm) | exact Hm].
Qed.

Lemma always_ret {A : Type} (I : World -> Prop) (a : A) : always I (mret a).
Proof. intros w HI. exact HI. Qed.

Lemma proto_frame_refl (cls0 : string) (h : Host) : proto_frame cls0 h h.
Proof. intros l _. destruct (classes h !! l); auto. Qed.

Lemma proto_frame_update (cls0 : string) (h0 h : Host) (l : positive)
    (c c' : ClassObj) :
  proto_frame cls0 h0 h ->
  classes h !! l = Some c ->
  proto c' = proto c \/ names h0 !! cls0 = Some l ->
  proto_frame cls0 h0 (mkHost (names h) (<[l := c']> (classes h))).
Proof.
  intros Hf Hc Hstep l' Hl'. specialize (Hf l' Hl'). cbn [classes].
  destruct (decide (l = l')) as [<- | Hne].
  - destruct Hstep as [Hp | Hl]; [| contradiction].
    rewrite lookup_insert_eq. rewrite Hc in Hf.
    destruct (classes h0 !! l); [| contradiction]. now rewrite Hp.
  - rewrite lookup_insert_ne by exact Hne. exact Hf.
Qed.

Section FrameRules.

Variables k cls0 : string.
Variable w0 : World.

Lemma Frame_set_types (cls : string) (v : value) :
  always (Frame k cls0 w0) (set_types cls k v).
Proof.
  intros w (Ht & Hw & Hn & Hf & Hp).
  unfold set_types, class_ref, update_class, mbind, M_bind.
  destruct (names (host w) !! cls) as [l |] eqn:Hl; [| repeat split; auto].
  destruct (classes (host w) !! l) as [c |] eqn:Hc; [| repeat split; auto].
  unfold Frame, with_host; cbn. repeat split; auto.
  - eapply types_frame_update; eauto. intros k' Hk. cbn.
    now rewrite lookup_insert_ne.
  - eapply proto_frame_update; eauto.
Qed.

Lemma Frame_set_proto (prop : string) (v : value) :
  always (Frame k cls0 w0) (set_proto cls0 prop v).
Proof.
  intros w (Ht & Hw & Hn & Hf & Hp).
  unfold set_proto, class_ref, update_class, mbind, M_bind.
  destruct (names (host w) !! cls0) as [l |] eqn:Hl; [| repeat split; auto].
  destruct (classes (host w) !! l) as [c |] eqn:Hc; [| repeat split; auto].
  unfold Frame, with_host; cbn. repeat split; auto.
  - eapply types_frame_update; eauto.
  - eapply proto_frame_update; eauto. right. now rewrite <- Hn.
Qed.

Lemma Frame_declare (name base : string) (methods statics : list string) :
  always (Frame k cls0 w0) (declare name base methods statics).
Proof.
  intros w HI. unfold declare, class_ref, mbind, M_bind, mret, M_ret.
  destruct (names (host w) !! base); exact HI.
Qed.

Lemma Frame_class_ref (cls : string) : always (Frame k cls0 w0) (class_ref cls).
Proof.
  intros w HI. unfold class_ref. destruct (names (host w) !! cls); exact HI.
Qed.

Lemma Frame_reset_hstore (x : option module_ref) :
  always (Frame k cls0 w0) (modify (with_hstore x)).
Proof. intros w HI. exact HI. Qed.

End FrameRules.

Lemma Frame_initial (k cls0 : string) (w : World) : Frame k cls0 w w.
Proof.
  repeat split; auto using types_frame_refl, proto_frame_refl.
Qed.

Ltac frame_step :=
  cbv zeta;
  first
    [ apply always_ret
    | apply always_bind;
      [ first [ apply Frame_set_types | apply Frame_set_proto
              | apply Frame_declare | apply Frame_class_ref
              | apply Frame_reset_hstore ]
      | intros ? ] ].

(** X14: whether the module functions return or throw half-way, they have
    changed no name of [BaseTypes], no wire type under another dialect key
    than their own, and no prototype but that of ARRAY (kingbase8) or of
    ABSTRACT (dm); the receiver and the warnings are as before. *)
Theorem exports_frame (w : World) :
  Frame "kingbase8" "ARRAY" w (final (K.exports w))
  /\ Frame "dm" "ABSTRACT" w (final (Dm.exports w)).
Proof.
  split.
  - assert (H : always (Frame "kingbase8" "ARRAY" w) K.exports).
    { unfold K.exports, K.dialect. repeat frame_step. }
    exact (H w (Frame_initial _ _ w)).
  - assert (H : always (Frame "dm" "ABSTRACT" w) Dm.exports).
    { unfold Dm.exports, Dm.dialect. repeat frame_step. }
    exact (H w (Frame_initial _ _ w)).
Qed.

Example exports_without_classes :
  result (K.exports sample_world) = Throw "TypeError: BaseTypes.ABSTRACT is undefined"
  /\ final (K.exports sample_world) = sample_world
  /\ result (Dm.exports sample_world) = Throw "TypeError: BaseTypes.ABSTRACT is undefined".
Proof. vm_compute. auto. Qed.

(** ** Registration, when it returns *)

Lemma existsb_eqb_In (x : string) (l : list string) :
  existsb (String.eqb x) l = true -> In x l.
Proof.
  induction l as [| y l IH]; cbn; [discriminate |].
  destruct (String.eqb_spec x y) as [-> | _]; auto.
Qed.

Lemma Forall_sub {P : string -> Prop} (N L : list string) :
  forallb (fun x => existsb (String.eqb x) N) L = true ->
  Forall P N -> Forall P L.
Proof.
  intros Hsub HN. induction L as [| x L IH]; [constructor |].
  cbn in Hsub. apply andb_true_iff in Hsub as [Hx HL].
  constructor; [| auto].
  apply existsb_eqb_In in Hx. rewrite Forall_forall in HN.
  apply HN. now apply list_elem_of_In.
Qed.

Section FullRules.

Variable k : string.
Variable h0 : Host.
Variable regs : list string.

Lemma Full_set_types (S : list (string * value))
    (P : list (string * string * value)) (G N : list string)
    (cls : string) (v : value) :
  existsb (String.eqb cls) regs = true ->
  forallb (fun e => existsb (String.eqb (fst e)) regs
                    && negb (String.eqb (fst e) cls)) S = true ->
  hoare (Full k h0 regs S P G N) (set_types cls k v)
        (fun _ w => Full k h0 regs (S ++ [(cls, v)]) P (G ++ [cls]) (N ++ [cls]) w).
Proof.
  intros Hin Hchk w (Hn & HS & HP & HG & HN).
  apply existsb_eqb_In in Hin.
  unfold wp, set_types, class_ref, update_class, mbind, M_bind.
  destruct (names (host w) !! cls) as [l |] eqn:Hl; [| exact I].
  destruct (classes (host w) !! l) as [c |] eqn:Hc; [| exact I].
  rewrite Hn in Hl.
  unfold Full, with_host; cbn [host names classes].
  split; [exact Hn |]. split; [| split; [| split]].
  - intros D. apply Forall_app. split.
    + specialize (HS D). rewrite Forall_forall in HS. apply Forall_forall.
      intros e He. destruct (HS e He) as (l1 & c1 & Hn1 & Hc1 & Hv1).
      rewrite forallb_forall in Hchk.
      specialize (Hchk e (proj1 (list_elem_of_In _ _) He)).
      apply andb_true_iff in Hchk as [Hreg Hne].
      apply existsb_eqb_In in Hreg.
      assert (l <> l1) as Hll.
      { intros <-. pose proof (D _ _ _ Hreg Hin Hn1 Hl) as Heq.
        rewrite Heq, String.eqb_refl in Hne. discriminate. }
      exists l1, c1. cbn [classes names]. rewrite lookup_insert_ne by exact Hll. auto.
    + constructor; [| constructor].
      exists l, (mkClassObj (<[k := v]> (types c)) (proto c)). cbn.
      rewrite !lookup_insert_eq. auto.
  - eapply Forall_impl; [exact HP |]. intros e (l1 & c1 & Hn1 & Hc1 & Hv1).
    destruct (decide (l = l1)) as [<- | Hll].
    + exists l, (mkClassObj (<[k := v]> (types c)) (proto c)).
      cbn [classes names]. rewrite lookup_insert_eq.
      rewrite Hc in Hc1. injection Hc1 as <-. auto.
    + exists l1, c1. cbn [classes names]. rewrite lookup_insert_ne by exact Hll. auto.
  - apply Forall_app. split.
    + eapply Forall_impl; [exact HG |]. intros cls' Hreg.
      eapply registered_update; eauto. intros v0 _. cbn.
      rewrite lookup_insert_eq. eauto.
    + constructor; [| constructor].
      exists l, (mkClassObj (<[k := v]> (types c)) (proto c)), v. cbn.
      rewrite Hn, !lookup_insert_eq. auto.
  - apply Forall_app. split; [exact HN |].
    constructor; [| constructor]. unfold named. rewrite Hl. eauto.
Qed.

Lemma Full_set_proto (S : list (string * value))
    (P : list (string * string * value)) (G N : list string)
    (cls prop : string) (v : value) :
  forallb (fun e => negb (String.eqb (snd (fst e)) prop)) P = true ->
  hoare (Full k h0 regs S P G N) (set_proto cls prop v)
        (fun _ w => Full k h0 regs S (P ++ [(cls, prop, v)]) G (N ++ [cls]) w).
Proof.
  intros Hchk w (Hn & HS & HP & HG & HN).
  unfold wp, set_proto, class_ref, update_class, mbind, M_bind.
  destruct (names (host w) !! cls) as [l |] eqn:Hl; [| exact I].
  destruct (classes (host w) !! l) as [c |] eqn:Hc; [| exact I].
  rewrite Hn in Hl.
  unfold Full, with_host; cbn [host names classes].
  split; [exact Hn |]. split; [| split; [| split]].
  - intros D. eapply Forall_impl; [exact (HS D) |].
    intros e (l1 & c1 & Hn1 & Hc1 & Hv1).
    destruct (decide (l = l1)) as [<- | Hll].
    + exists l, (mkClassObj (types c) (<[prop := v]> (proto c))).
      cbn [classes names]. rewrite lookup_insert_eq.
      rewrite Hc in Hc1. injection Hc1 as <-. auto.
    + exists l1, c1. cbn [classes names]. rewrite lookup_insert_ne by exact Hll. auto.
  - apply Forall_app. split.
    + rewrite Forall_forall in HP. apply Forall_forall. intros e He.
      destruct (HP e He) as (l1 & c1 & Hn1 & Hc1 & Hv1).
      rewrite forallb_forall in Hchk.
      specialize (Hchk e (proj1 (list_elem_of_In _ _) He)).
      apply negb_true_iff, String.eqb_neq in Hchk.
      destruct (decide (l = l1)) as [<- | Hll].
      * exists l, (mkClassObj (types c) (<[prop := v]> (proto c))).
        cbn [classes names]. rewrite lookup_insert_eq.
        rewrite Hc in Hc1. injection Hc1 as <-.
        cbn. rewrite lookup_insert_ne by congruence. auto.
      * exists l1, c1. cbn [classes names]. rewrite lookup_insert_ne by exact Hll. auto.
    + constructor; [| constructor].
      exists l, (mkClassObj (types c) (<[prop := v]> (proto c))). cbn.
      rewrite !lookup_insert_eq. auto.
  - eapply Forall_impl; [exact HG |]. intros cls' Hreg.
    eapply registered_update; eauto.
  - apply Forall_app. split; [exact HN |].
    constructor; [| constructor]. unfold named. rewrite Hl. eauto.
Qed.

Lemma Full_declare (S : list (string * value))
    (P : list (string * string * value)) (G N : list string)
    (name base : string) (methods statics : list string) :
  hoare (Full k h0 regs S P G N) (declare name base methods statics)
        (fun c w => Full k h0 regs S P G (N ++ [base]) w
                    /\ c = mkClass name (resolve h0 base) methods statics).
Proof.
  intros w (Hn & HS & HP & HG & HN).
  unfold wp, declare, class_ref, mbind, M_bind, mret, M_ret.
  destruct (names (host w) !! base) as [l |] eqn:Hl; [| exact I].
  rewrite Hn in Hl. split.
  - repeat split; auto. apply Forall_app. split; [exact HN |].
    constructor; [| constructor]. unfold named. rewrite Hl. eauto.
  - unfold resolve. now rewrite Hl.
Qed.

Lemma Full_class_ref (S : list (string * value))
    (P : list (string * string * value)) (G N : list string) (cls : string) :
  hoare (Full k h0 regs S P G N) (class_ref cls)
        (fun _ w => Full k h0 regs S P G (N ++ [cls]) w).
Proof.
  intros w (Hn & HS & HP & HG & HN). unfold wp, class_ref.
  destruct (names (host w) !! cls) as [l |] eqn:Hl; [| exact I].
  rewrite Hn in Hl. repeat split; auto. apply Forall_app. split; [exact HN |].
  constructor; [| constructor]. unfold named. rewrite Hl. eauto.
Qed.

Lemma Full_reset_hstore (S : list (string * value))
    (P : list (string * string * value)) (G N : list string)
    (x : option module_ref) :
  hoare (Full k h0 regs S P G N) (modify (with_hstore x))
        (fun _ w => Full k h0 regs S P G N w).
Proof. intros w HI. exact HI. Qed.

End FullRules.

Lemma Full_initial (k : string) (regs : list string) (w : World) :
  Full k (host w) regs [] [] [] [] w.
Proof. repeat split; auto; constructor. Qed.

Ltac full_step :=
  cbv zeta;
  first
    [ eapply hoare_bind;
      [ apply Full_declare
      | intros ?; cbv beta; apply hoare_pure; intros -> ]
    | eapply hoare_bind;
      [ first [ apply Full_set_types; reflexivity
              | apply Full_set_proto; reflexivity
              | apply Full_class_ref | apply Full_reset_hstore ]
      | intros ?; cbv beta ] ].

Lemma K_exports_full (h0 : Host) :
  hoare (Full "kingbase8" h0 (map fst K_types) [] [] [] []) K.exports
    (fun T w =>
       (names (host w) = names h0
        /\ (distinct h0 (map fst K_types) ->
            Forall (types_at "kingbase8" h0 (host w)) K_types)
        /\ Forall (proto_at h0 (host w))
             [("ARRAY", "escape", VBool false);
              ("ARRAY", "_value", VFunction "_value");
              ("ARRAY", "_stringify", VFunction "_stringify");
              ("ARRAY", "_bindParam", VFunction "_bindParam")]
        /\ Forall (registered "kingbase8" (host w)) (map fst K_types)
        /\ Forall (named h0) K_names)
       /\ T = K_table (resolve h0)).
Proof.
  unfold K.exports, K.dialect.
  repeat full_step. apply hoare_ret.
  intros w (Hn & HS & HP & HG & HN).
  split; [| reflexivity].
  split; [exact Hn |]. split; [exact HS |]. split; [exact HP |].
  split; [exact HG |].
  eapply Forall_sub; [| exact HN]. vm_compute. reflexivity.
Qed.

Lemma Dm_exports_full (h0 : Host) :
  hoare (Full "dm" h0 (map fst Dm_types) [] [] [] []) Dm.exports
    (fun T w =>
       (names (host w) = names h0
        /\ (distinct h0 (map fst Dm_types) ->
            Forall (types_at "dm" h0 (host w)) Dm_types)
        /\ Forall (proto_at h0 (host w))
             [("ABSTRACT", "dialectTypes",
               VStr "https://eco.dameng.com/docs/zh-cn/sql-dev/dmpl-sql-datatype.html")]
        /\ Forall (registered "dm" (host w)) (map fst Dm_types)
        /\ Forall (named h0) Dm_names)
       /\ T = Dm_table (resolve h0)).
Proof.
  unfold Dm.exports, Dm.dialect.
  repeat full_step. apply hoare_ret.
  intros w (Hn & HS & HP & HG & HN).
  split; [| reflexivity].
  split; [exact Hn |]. split; [exact HS |]. split; [exact HP |].
  split; [exact HG |].
  eapply Forall_sub; [| exact HN]. vm_compute. reflexivity.
Qed.

Lemma NoDup_distinct (h : Host) (regs : list string) :
  NoDup (map (fun a => names h !! a) regs) -> distinct h regs.
Proof.
  induction regs as [| x regs IH]; intros Hnd a b l Ha Hb Hal Hbl.
  - destruct Ha.
  - cbn in Hnd. apply NoDup_cons in Hnd as [Hx Hnd].
    destruct Ha as [<- | Ha], Hb as [<- | Hb]; auto.
    + exfalso. apply Hx. rewrite Hal, <- Hbl.
      apply list_elem_of_In. apply (in_map (fun a => names h !! a)). exact Hb.
    + exfalso. apply Hx. rewrite Hbl, <- Hal.
      apply list_elem_of_In. apply (in_map (fun a => names h !! a)). exact Ha.
    + eapply IH; eauto.
Qed.

Lemma sample_distinct (regs : list string) :
  bool_decide (NoDup (map (fun a => names sample_host !! a) regs)) = true ->
  distinct sample_host regs.
Proof. intros H. apply NoDup_distinct. now apply bool_decide_eq_true in H. Qed.

Lemma K_exports_sample :
  K.exports host_world
  = (Return (returned [] (result (K.exports host_world))),
     final (K.exports host_world)).
Proof. vm_compute. reflexivity. Qed.

Lemma Dm_exports_sample :
  Dm.exports host_world
  = (Return (returned [] (result (Dm.exports host_world))),
     final (Dm.exports host_world)).
Proof. vm_compute. reflexivity. Qed.

Lemma K_exports_post (w w' : World) (T : list (string * Class)) :
  K.exports w = (Return T, w') ->
  (names (host w') = names (host w)
   /\ (distinct (host w) (map fst K_types) ->
       Forall (types_at "kingbase8" (host w) (host w')) K_types)
   /\ Forall (proto_at (host w) (host w'))
        [("ARRAY", "escape", VBool false);
         ("ARRAY", "_value", VFunction "_value");
         ("ARRAY", "_stringify", VFunction "_stringify");
         ("ARRAY", "_bindParam", VFunction "_bindParam")]
   /\ Forall (registered "kingbase8" (host w')) (map fst K_types)
   /\ Forall (named (host w)) K_names)
  /\ T = K_table (resolve (host w)).
Proof.
  intros He. pose proof (K_exports_full (host w) w (Full_initial _ _ w)) as H.
  unfold wp in H. now rewrite He in H.
Qed.

Lemma Dm_exports_post (w w' : World) (T : list (string * Class)) :
  Dm.exports w = (Return T, w') ->
  (names (host w') = names (host w)
   /\ (distinct (host w) (map fst Dm_types) ->
       Forall (types_at "dm" (host w) (host w')) Dm_types)
   /\ Forall (proto_at (host w) (host w'))
        [("ABSTRACT", "dialectTypes",
          VStr "https://eco.dameng.com/docs/zh-cn/sql-dev/dmpl-sql-datatype.html")]
   /\ Forall (registered "dm" (host w')) (map fst Dm_types)
   /\ Forall (named (host w)) Dm_names)
  /\ T = Dm_table (resolve (host w)).
Proof.
  intros He. pose proof (Dm_exports_full (host w) w (Full_initial _ _ w)) as H.
  unfold wp in H. now rewrite He in H.
Qed.

(** X15: when the KingbaseES module returns, applied to a [BaseTypes] in
    which the registered names denote different classes, every one of these
    classes has under ['kingbase8'] exactly the wire types the file assigns
    to it. *)
Theorem K_exports_wire_types (w w' : World) (T : list (string * Class)) :
  K.exports w = (Return T, w') ->
  distinct (host w) (map fst K_types) ->
  Forall (types_at "kingbase8" (host w) (host w')) K_types.
Proof. intros He D. now apply (K_exports_post w w' T He). Qed.

Lemma K_exports_wire_types_witness :
  Forall (types_at "kingbase8" (host host_world)
            (host (final (K.exports host_world)))) K_types.
Proof.
  apply (K_exports_wire_types host_world _ _ K_exports_sample).
  apply sample_distinct. vm_compute. reflexivity.
Defined.

(** X16: when the Dameng module returns, applied to a [BaseTypes] in which
    the registered names denote different classes, every one of these
    classes has under ['dm'] exactly the wire types the file assigns to it
    ([false] for UUID and ENUM). *)
Theorem Dm_exports_wire_types (w w' : World) (T : list (string * Class)) :
  Dm.exports w = (Return T, w') ->
  distinct (host w) (map fst Dm_types) ->
  Forall (types_at "dm" (host w) (host w')) Dm_types.
Proof. intros He D. now apply (Dm_exports_post w w' T He). Qed.

Lemma Dm_exports_wire_types_witness :
  Forall (types_at "dm" (host host_world)
            (host (final (Dm.exports host_world)))) Dm_types.
Proof.
  apply (Dm_exports_wire_types host_world _ _ Dm_exports_sample).
  apply sample_distinct. vm_compute. reflexivity.
Defined.

(** X17: after the KingbaseES module has returned (on a [BaseTypes] with
    different classes under the registered names), [RANGE.toSql] and
    [RANGE.toCastType] read the two tables the module registered, at the
    lower-cased subtype, and change nothing. *)
Theorem RANGE_toSql_registered (engine_member : value -> string -> outcome value)
    (w w' : World) (T : list (string * Class)) (s : string) :
  K.exports w = (Return T, w') ->
  distinct (host w) (map fst K_types) ->
  K.RANGE_toSql engine_member (VStr s) w'
  = (K.member engine_member
       (VObject [("integer", VStr "int4range"); ("decimal", VStr "numrange");
                 ("date", VStr "tstzrange"); ("dateonly", VStr "daterange");
                 ("bigint", VStr "int8range")])
       (toLowerCase s), w')
  /\ K.RANGE_toCastType engine_member (VStr s) w'
     = (K.member engine_member
          (VObject [("integer", VStr "int4"); ("decimal", VStr "numeric");
                    ("date", VStr "timestamptz"); ("dateonly", VStr "date");
                    ("bigint", VStr "int8")])
          (toLowerCase s), w').
Proof.
  intros He D.
  destruct (K_exports_post w w' T He) as [(Hn & HS & _) _].
  specialize (HS D). rewrite Forall_forall in HS.
  destruct (HS ("RANGE", K.range_types)) as (l & c & Hl & Hc & Hv).
  { apply list_elem_of_In. unfold K_types.
    repeat (first [left; reflexivity | right]). }
  cbn [fst snd] in *.
  unfold K.RANGE_toSql, K.RANGE_toCastType, K.RANGE_table, class_ref, read,
    lift_outcome, mbind, M_bind.
  rewrite Hn, Hl, Hc, Hv. split; reflexivity.
Qed.

Lemma RANGE_toSql_registered_witness :
  result (K.RANGE_toSql (fun _ _ => Return VUndefined) (VStr "DateOnly")
            (final (K.exports host_world)))
  = Return (VStr "daterange")
  /\ result (K.RANGE_toCastType (fun _ _ => Return VUndefined) (VStr "DateOnly")
               (final (K.exports host_world)))
     = Return (VStr "date").
Proof.
  destruct (RANGE_toSql_registered (fun _ _ => Return VUndefined)
              host_world _ _ "DateOnly" K_exports_sample) as [H1 H2].
  { apply sample_distinct. vm_compute. reflexivity. }
  rewrite H1, H2. split; reflexivity.
Defined.

(** X18: the tables the two module functions return are determined by the
    class objects [BaseTypes] has under the names they extend: the entries,
    in order, with their classes' names, parents, own prototype properties
    and own static methods, are those of [K_table] and [Dm_table]. *)
Theorem exports_table (w1 w2 wk wd : World) (Tk Td : list (string * Class)) :
  K.exports w1 = (Return Tk, wk) ->
  Dm.exports w2 = (Return Td, wd) ->
  Tk = K_table (resolve (host w1)) /\ Td = Dm_table (resolve (host w2)).
Proof.
  intros Hk Hd. split.
  - apply (K_exports_post w1 wk Tk Hk).
  - apply (Dm_exports_post w2 wd Td Hd).
Qed.

Lemma exports_table_witness :
  returned [] (result (K.exports host_world)) = K_table (resolve sample_host)
  /\ returned [] (result (Dm.exports host_world)) = Dm_table (resolve sample_host).
Proof.
  apply (exports_table host_world host_world _ _ _ _
           K_exports_sample Dm_exports_sample).
Defined.

(** X19: when the module functions return, the prototype of the host's
    ARRAY has [escape === false] and the three functions [_value],
    [_stringify] and [_bindParam] of the KingbaseES file, and the prototype
    of the host's ABSTRACT has the [dialectTypes] link of the Dameng
    file. *)
Theorem exports_prototypes (w1 w2 wk wd : World) (Tk Td : list (string * Class)) :
  K.exports w1 = (Return Tk, wk) ->
  Dm.exports w2 = (Return Td, wd) ->
  Forall (proto_at (host w1) (host wk))
    [("ARRAY", "escape", VBool false);
     ("ARRAY", "_value", VFunction "_value");
     ("ARRAY", "_stringify", VFunction "_stringify");
     ("ARRAY", "_bindParam", VFunction "_bindParam")]
  /\ Forall (proto_at (host w2) (host wd))
       [("ABSTRACT", "dialectTypes",
         VStr "https://eco.dameng.com/docs/zh-cn/sql-dev/dmpl-sql-datatype.html")].
Proof.
  intros Hk Hd. split.
  - apply (K_exports_post w1 wk Tk Hk).
  - apply (Dm_exports_post w2 wd Td Hd).
Qed.

Lemma exports_prototypes_witness :
  Forall (proto_at sample_host (host (final (K.exports host_world))))
    [("ARRAY", "escape", VBool false);
     ("ARRAY", "_value", VFunction "_value");
     ("ARRAY", "_stringify", VFunction "_stringify");
     ("ARRAY", "_bindParam", VFunction "_bindParam")]
  /\ Forall (proto_at sample_host (host (final (Dm.exports host_world))))
       [("ABSTRACT", "dialectTypes",
         VStr "https://eco.dameng.com/docs/zh-cn/sql-dev/dmpl-sql-datatype.html")].
Proof.
  apply (exports_prototypes host_world host_world _ _ _ _
           K_exports_sample Dm_exports_sample).
Defined.

Lemma parse_registered_entry (k : string) (h0 h : Host) (regs : list string)
    (key name base : string) (methods statics : list string) :
  names h = names h0 ->
  Forall (registered k h) regs ->
  existsb (String.eqb "parse") statics = false
  \/ existsb (String.eqb base) regs = true ->
  has_own_static "parse" (snd (key, mkClass name (resolve h0 base) methods statics))
  = true ->
  exists c v,
    classes h !! parent (snd (key, mkClass name (resolve h0 base) methods statics))
    = Some c
    /\ types c !! k = Some v.
Proof.
  intros Hn HG Hcase Hp. unfold has_own_static in Hp.
  cbn [snd own_statics] in Hp. cbn [snd parent].
  destruct Hcase as [Hno | Hin].
  - rewrite Hno in Hp. discriminate.
  - apply existsb_eqb_In in Hin. rewrite Forall_forall in HG.
    destruct (HG base) as (l & c & v & Hl & Hc & Hv);
      [now apply list_elem_of_In |].
    unfold resolve. rewrite <- Hn, Hl. cbn. eauto.
Qed.

(** X20: in the tables the module functions return, every class that has a
    static [parse] of its own extends a class for which the module has
    registered wire types under its dialect key. *)
Theorem parse_registered (w1 w2 wk wd : World) (Tk Td : list (string * Class)) :
  K.exports w1 = (Return Tk, wk) ->
  Dm.exports w2 = (Return Td, wd) ->
  Forall (fun e =>
            has_own_static "parse" (snd e) = true ->
            exists c v,
              classes (host wk) !! parent (snd e) = Some c
              /\ types c !! "kingbase8" = Some v) Tk
  /\ Forall (fun e =>
               has_own_static "parse" (snd e) = true ->
               exists c v,
                 classes (host wd) !! parent (snd e) = Some c
                 /\ types c !! "dm" = Some v) Td.
Proof.
  intros Hk Hd. split.
  - destruct (K_exports_post w1 wk Tk Hk) as [(Hn & _ & _ & HG & _) ->].
    unfold K_table.
    repeat (constructor;
            [ apply (parse_registered_entry _ _ _ _ _ _ _ _ _ Hn HG);
              first [left; reflexivity | right; reflexivity] |]).
    constructor.
  - destruct (Dm_exports_post w2 wd Td Hd) as [(Hn & _ & _ & HG & _) ->].
    unfold Dm_table.
    repeat (constructor;
            [ apply (parse_registered_entry _ _ _ _ _ _ _ _ _ Hn HG);
              first [left; reflexivity | right; reflexivity] |]).
    constructor.
Qed.

Lemma parse_registered_witness :
  Forall (fun e =>
            has_own_static "parse" (snd e) = true ->
            exists c v,
              classes (host (final (K.exports host_world))) !! parent (snd e) = Some c
              /\ types c !! "kingbase8" = Some v)
         (returned [] (result (K.exports host_world))).
Proof.
  apply (parse_registered host_world host_world _ _ _ _
           K_exports_sample Dm_exports_sample).
Defined.

(** ** Registration: when it returns *)

Lemma thoare_bind {A B : Type} (P : World -> Prop) (m : M A)
    (Q : A -> World -> Prop) (f : A -> M B) (R : B -> World -> Prop) :
  thoare P m Q -> (forall a, thoare (Q a) (f a) R) -> thoare P (m ≫= f) R.
Proof.
  intros Hm Hf w HP. specialize (Hm w HP).
  unfold twp, mbind, M_bind in *.
  destruct (m w) as [[a | e] w']; [exact (Hf a w' Hm) | exact Hm].
Qed.

Lemma thoare_ret {A : Type} (P : World -> Prop) (a : A) :
  thoare P (mret a) (fun _ _ => True).
Proof. intros w _. exact I. Qed.

Section ReadyRules.

Variable h0 : Host.
Hypothesis Hwf : wf_host h0.
Variable all : list string.
Hypothesis Hall : Forall (named h0) all.

Lemma named_in (cls : string) :
  existsb (String.eqb cls) all = true -> exists l, names h0 !! cls = Some l.
Proof.
  intros Hin. apply existsb_eqb_In in Hin. rewrite Forall_forall in Hall.
  apply (Hall cls). now apply list_elem_of_In.
Qed.

Lemma Ready_update (cls : string) (f : ClassObj -> ClassObj) :
  existsb (String.eqb cls) all = true ->
  thoare (Ready h0) (l ← class_ref cls; update_class l f) (fun _ => Ready h0).
Proof.
  intros Hin w [Hn Hc]. destruct (named_in cls Hin) as [l Hl].
  unfold twp, class_ref, update_class, mbind, M_bind. rewrite Hn, Hl.
  destruct (Hc l (Hwf cls l Hl)) as [c Hcl]. rewrite Hcl.
  unfold Ready, with_host; cbn [host names classes]. split; [exact Hn |].
  intros l' Hl'. destruct (decide (l = l')) as [<- | Hne].
  - rewrite lookup_insert_eq. eauto.
  - rewrite lookup_insert_ne by exact Hne. auto.
Qed.

Lemma Ready_set_types (cls k : string) (v : value) :
  existsb (String.eqb cls) all = true ->
  thoare (Ready h0) (set_types cls k v) (fun _ => Ready h0).
Proof. apply Ready_update. Qed.

Lemma Ready_set_proto (cls prop : string) (v : value) :
  existsb (String.eqb cls) all = true ->
  thoare (Ready h0) (set_proto cls prop v) (fun _ => Ready h0).
Proof. apply Ready_update. Qed.

Lemma Ready_class_ref (cls : string) :
  existsb (String.eqb cls) all = true ->
  thoare (Ready h0) (class_ref cls) (fun _ => Ready h0).
Proof.
  intros Hin w [Hn Hc]. destruct (named_in cls Hin) as [l Hl].
  unfold twp, class_ref. rewrite Hn, Hl. split; assumption.
Qed.

Lemma Ready_declare (name base : string) (methods statics : list string) :
  existsb (String.eqb base) all = true ->
  thoare (Ready h0) (declare name base methods statics) (fun _ => Ready h0).
Proof.
  intros Hin w [Hn Hc]. destruct (named_in base Hin) as [l Hl].
  unfold twp, declare, class_ref, mbind, M_bind, mret, M_ret.
  rewrite Hn, Hl. split; assumption.
Qed.

Lemma Ready_reset_hstore (x : option module_ref) :
  thoare (Ready h0) (modify (with_hstore x)) (fun _ => Ready h0).
Proof. intros w HI. exact HI. Qed.

End ReadyRules.

Ltac ready_step Hwf Hall :=
  cbv zeta;
  first
    [ apply thoare_ret
    | eapply thoare_bind;
      [ first [ apply (Ready_set_types _ Hwf _ Hall); reflexivity
              | apply (Ready_set_proto _ Hwf _ Hall); reflexivity
              | apply (Ready_declare _ _ Hall); reflexivity
              | apply (Ready_class_ref _ _ Hall); reflexivity
              | apply Ready_reset_hstore ]
      | intros ?; cbv beta ] ].

Lemma Ready_initial (w : World) : Ready (host w) w.
Proof. split; auto. Qed.

(** X21: on a [BaseTypes] whose properties all hold class objects, each
    module function returns if and only if [BaseTypes] has all the names
    the file uses; if one is missing, it throws. *)
Theorem exports_returns_iff (w : World) :
  wf_host (host w) ->
  ((exists T w', K.exports w = (Return T, w'))
   <-> Forall (named (host w)) K_names)
  /\ ((exists T w', Dm.exports w = (Return T, w'))
      <-> Forall (named (host w)) Dm_names).
Proof.
  intros Hwf. split; split.
  - intros (T & w' & He). apply (K_exports_post w w' T He).
  - intros Hall.
    assert (H : thoare (Ready (host w)) K.exports (fun _ _ => True)).
    { unfold K.exports, K.dialect. repeat ready_step Hwf Hall. }
    specialize (H w (Ready_initial w)). unfold twp in H.
    destruct (K.exports w) as [[T | e] w']; [eauto | contradiction].
  - intros (T & w' & He). apply (Dm_exports_post w w' T He).
  - intros Hall.
    assert (H : thoare (Ready (host w)) Dm.exports (fun _ _ => True)).
    { unfold Dm.exports, Dm.dialect. repeat ready_step Hwf Hall. }
    specialize (H w (Ready_initial w)). unfold twp in H.
    destruct (Dm.exports w) as [[T | e] w']; [eauto | contradiction].
Qed.

Lemma sample_wf : wf_host sample_host.
Proof.
  intros cls l H. unfold sample_host in H. cbn [names] in H.
  apply elem_of_list_to_map_2 in H. unfold sample_names in H.
  repeat (apply elem_of_cons in H as [H | H];
          [injection H as -> ->; vm_compute; eauto |]).
  now apply elem_of_nil in H.
Qed.

Lemma exports_returns_iff_witness :
  (exists T w', K.exports host_world = (Return T, w'))
  <-> Forall (named (host host_world)) K_names.
Proof. apply (exports_returns_iff host_world sample_wf). Defined.
